(** * The device authorization store of public-server.js

  The repository holds two versions of [public-server.js].  Both answer the
  license check [GET /check?deviceId=...] and let an operator maintain an
  allow list and a block list.

  - The first version (module [V1]) loads [server.json] once, keeps the
    lists in the global [state] and writes the file after every change.
  - The second version (module [V2]) keeps nothing in memory: every request
    calls [loadServerData], changes the loaded object and writes it back.
    It adds the [pending] list and the [lastSeen] object.

  The handlers are embedded as pure functions that pass the global state and
  the file system explicitly.  Module [JS] holds the pieces of JavaScript
  the handlers rely on, module [Http] the requests and responses. *)

From Stdlib Require Import String Ascii List ZArith Bool.
From stdpp Require Import base option list gmap strings.

Local Open Scope string_scope.
Local Open Scope Z_scope.

(** ** JavaScript values and library functions used by the server *)
Module JS.

(** Strings are sequences of code units below 256.  In that range the white
    space removed by [String.prototype.trim] (WhiteSpace and LineTerminator
    of ECMAScript) is TAB, LF, VT, FF, CR, SP and NBSP. *)
Definition is_white_space (c : ascii) : bool :=
  let n := nat_of_ascii c in
  Nat.eqb n 9 || Nat.eqb n 10 || Nat.eqb n 11 || Nat.eqb n 12
  || Nat.eqb n 13 || Nat.eqb n 32 || Nat.eqb n 160.

Fixpoint trimStart (s : string) : string :=
  match s with
  | EmptyString => EmptyString
  | String c r => if is_white_space c then trimStart r else s
  end.

Fixpoint trimEnd (s : string) : string :=
  match s with
  | EmptyString => EmptyString
  | String c r =>
      match trimEnd r with
      | EmptyString => if is_white_space c then EmptyString else String c EmptyString
      | r' => String c r'
      end
  end.

(** [s.trim()] *)
Definition trim (s : string) : string := trimEnd (trimStart s).

(** Truthiness of a string: only the empty string is falsy. *)
Definition truthy (s : string) : bool := negb (String.eqb s "").

(** [x || ''] for [x] a string, [null] or [undefined]. *)
Definition or_empty (x : option string) : string :=
  match x with Some s => s | None => "" end.

(** [x || d] for [x] a string or [undefined]: the empty string is falsy. *)
Definition or_string (x : option string) (d : string) : string :=
  match x with Some s => if truthy s then s else d | None => d end.

(** [x || d] for [x] an array or object or [undefined]: every array and
    every object is truthy, the empty ones too. *)
Definition or_default {A : Type} (x : option A) (d : A) : A :=
  match x with Some a => a | None => d end.

(** [l.includes(x)] on an array of strings (SameValueZero is string
    equality there). *)
Definition includes (x : string) (l : list string) : bool :=
  existsb (String.eqb x) l.

(** [l.filter(id => id !== x)] *)
Definition filter_ne (x : string) (l : list string) : list string :=
  List.filter (fun id => negb (String.eqb id x)) l.

(** [l.push(x)] *)
Definition push (x : string) (l : list string) : list string := l ++ [x].

(** [h.startsWith(p)], [h.slice(7)] and [h.substring(7)] (the same for a
    non-negative index). *)
Definition startsWith (p h : string) : bool := String.prefix p h.
Definition slice (n : nat) (h : string) : string :=
  String.substring n (String.length h - n) h.

(** [o[k] = v] on an ordinary object whose prototype is [Object.prototype],
    as object literals and the objects built by [JSON.parse] are.  The
    assignment creates or overwrites the own property [k], except for the
    key [__proto__] when [o] has no own property of that name: the name then
    resolves to the accessor inherited from [Object.prototype], whose setter
    ignores a value that is neither an object nor [null], so assigning a
    string leaves [o] as it was.  (Only [JSON.parse] of a text that spells
    the key out gives an object with an own [__proto__].) *)
Definition assign (o : gmap string string) (k v : string) : gmap string string :=
  if String.eqb k "__proto__" then
    match o !! k with Some _ => <[k:=v]> o | None => o end
  else <[k:=v]> o.

(** *** The file [server.json]

    A file is described by what the [fs] calls and [JSON.parse] make of it.
    [A] is the type of the JSON documents of the store's layout; a JSON text
    of another shape is outside the model. *)
Inductive text (A : Type) : Type :=
| Blank                       (* the empty text *)
| Garbage                     (* a non-empty text that JSON.parse rejects *)
| Json (v : A).               (* a JSON text, given by its value *)
Arguments Blank {A}.
Arguments Garbage {A}.
Arguments Json {A} v.

Inductive file (A : Type) : Type :=
| Missing                     (* no such file *)
| Unreadable                  (* the file exists, reading it throws *)
| Readable (raw : text A).
Arguments Missing {A}.
Arguments Unreadable {A}.
Arguments Readable {A} raw.

(** [writable] tells whether [fs.writeFileSync] on the path succeeds; it
    throws otherwise. *)
Record disk (A : Type) : Type := Disk { content : file A; writable : bool }.
Arguments Disk {A} content writable.
Arguments content {A} d.
Arguments writable {A} d.

Definition existsSync {A} (fs : disk A) : bool :=
  match content fs with Missing => false | _ => true end.

(** [None] stands for a thrown exception in the three functions below. *)
Definition readFileSync {A} (fs : disk A) : option (text A) :=
  match content fs with Readable raw => Some raw | _ => None end.

Definition JSON_parse {A} (raw : text A) : option A :=
  match raw with Json v => Some v | _ => None end.

(** What a file holds for a reader once [v] was written to it.  Writing
    does not change who may read: a file whose read throws (a write-only
    file) takes the text and its read throws as before. *)
Definition written {A} (f : file A) (v : A) : file A :=
  match f with
  | Unreadable => Unreadable
  | _ => Readable (Json v)
  end.

Definition writeFileSync {A} (fs : disk A) (v : A) : option (disk A) :=
  if writable fs then Some (Disk (written (content fs) v) true) else None.

(** [try { fs.writeFileSync(FILE, JSON.stringify(data, null, 2)) } catch {}] *)
Definition try_write {A} (fs : disk A) (v : A) : disk A :=
  match writeFileSync fs v with Some fs' => fs' | None => fs end.

(** A file that gives no stored state: it is missing, cannot be read, or its
    text is not valid JSON. *)
Definition corrupt {A} (f : file A) : bool :=
  match f with
  | Missing | Unreadable | Readable Blank | Readable Garbage => true
  | Readable (Json _) => false
  end.

(** The file keeps what is written to it and gives it back: the write is
    accepted and the file can be read. *)
Definition retains {A} (fs : disk A) : bool :=
  writable fs && match content fs with Unreadable => false | _ => true end.

(** The environment changes the permission of the file. *)
Definition chmod {A} (w : bool) (fs : disk A) : disk A := Disk (content fs) w.

End JS.

(** ** Requests and responses *)
Module Http.

(** The body of a request as [JSON.parse] sees it.  Only the member
    [deviceId] of the object is read; it is modelled when it is a string. *)
Inductive body : Type :=
| NoBody                               (* no data was sent *)
| BadJson                              (* data that JSON.parse rejects *)
| JsonObject (deviceId : option string).

Record request : Type := Request {
  method : string;
  pathname : string;
  searchParams : list (string * string);
  authorization : option string;       (* req.headers.authorization *)
  payload : body
}.

(** [searchParams.get(name)]: the first value of the name, or [null]. *)
Fixpoint get (name : string) (q : list (string * string)) : option string :=
  match q with
  | [] => None
  | (k, v) :: q' => if String.eqb k name then Some v else get name q'
  end.

(** What [sendJson] is called with: the status code and the members of the
    body.  A member that a version does not send is [None]. *)
Inductive response : Type :=
| Empty_object (code : Z)
| Health (timestamp : option string)
| Decision (code : Z) (allowed forceExit : bool) (intervalSec : Z) (reason : string)
| Error (code : Z) (error : string)
| Allow_list (allow : list string)
| Block_list (block : list string)
| Pending_list (pending : list string)
| Listing (allow block : list string) (pending : option (list string))
          (lastSeen : option (gmap string string)).

(** Whether a response lets the device run. *)
Definition allows (r : response) : bool :=
  match r with Decision _ allowed _ _ _ => allowed | _ => false end.

Definition reason_of (r : response) : option string :=
  match r with Decision _ _ _ _ reason => Some reason | _ => None end.

Definition lastSeen_of (r : response) : gmap string string :=
  match r with Listing _ _ _ (Some m) => m | _ => ∅ end.

Definition pending_of (r : response) : list string :=
  match r with Listing _ _ (Some p) _ => p | _ => [] end.

End Http.

(** ** The first version: the state lives in memory *)
Module V1.
Import JS Http.

(** [process.env.ADMIN_TOKEN || 'admin_7f9e2a1b_8c4d_9e5f_0a1b_2c3d4e5f6a7b'];
    [env] is the value of the environment variable, if it is set. *)
Definition DEFAULT_ADMIN_TOKEN (env : option string) : string :=
  or_string env "admin_7f9e2a1b_8c4d_9e5f_0a1b_2c3d4e5f6a7b".

(** The object that [JSON.parse] builds from [server.json].  Each member may
    be absent; a member of another type than the layout's is outside the
    model.  Members that this version does not know are carried along and
    never read. *)
Record parsed : Type := Parsed {
  p_adminToken : option string;
  p_allow : option (list string);
  p_block : option (list string)
}.

(** The global [state]. *)
Record State : Type := MkState {
  adminToken : string;
  allow : list string;
  block : list string
}.

Definition JSON_stringify (s : State) : parsed :=
  Parsed (Some (adminToken s)) (Some (allow s)) (Some (block s)).

Definition seed (env : option string) : State :=
  MkState (DEFAULT_ADMIN_TOKEN env) [] [].

(** [raw || '{}'] *)
Definition or_empty_object (raw : text parsed) : text parsed :=
  match raw with Blank => Json (Parsed None None None) | _ => raw end.

(** The three repairs of [loadData]: [!parsed.adminToken] holds of a missing
    and of an empty token, [Array.isArray] fails of a missing list. *)
Definition repair (env : option string) (p : parsed) : State :=
  MkState (or_string (p_adminToken p) (DEFAULT_ADMIN_TOKEN env))
          (or_default (p_allow p) [])
          (or_default (p_block p) []).

(** [loadData]: the whole body is inside [try]; every exception ends in the
    [catch] that returns a fresh seed without writing it. *)
Definition loadData (env : option string) (fs : disk parsed)
  : State * disk parsed :=
  if negb (existsSync fs) then
    (seed env, try_write fs (JSON_stringify (seed env)))
  else
    match readFileSync fs with
    | None => (seed env, fs)
    | Some raw =>
        match JSON_parse (or_empty_object raw) with
        | None => (seed env, fs)
        | Some p => (repair env p, fs)
        end
    end.

Definition saveData (data : State) (fs : disk parsed) : disk parsed :=
  try_write fs (JSON_stringify data).

Definition isAuthorized (req : request) (state : State) : bool :=
  let h := or_empty (authorization req) in
  let token := if startsWith "Bearer " h then slice 7 h else "" in
  truthy token && String.eqb token (adminToken state).

(** [(await readBody(req)).deviceId]: no data and data that does not parse
    both give [{}], which has no such member. *)
Definition readBody (b : body) : option string :=
  match b with JsonObject deviceId => deviceId | _ => None end.

Definition notFound : response := Error 404 "Not found".
Definition unauthorized : response := Error 401 "Unauthorized".

(** *** The operations, as functions of the local constant [deviceId] *)

(** [GET /check], from [let allowed = false] on.  The state is only read. *)
Definition op_check (deviceId : string) (state : State) : response :=
  let '(allowed, reason) :=
    if negb (truthy deviceId) then (false, "missing deviceId")
    else if includes deviceId (block state) then (false, "blocked")
    else if includes deviceId (allow state) then (true, "")
    else (false, "not allowed") in
  Decision 200 allowed (negb allowed) 30 reason.

Definition op_list (state : State) : response :=
  Listing (allow state) (block state) None None.

(** [POST /allow], from the test of [deviceId] on. *)
Definition op_allow (deviceId : string) (state : State) (fs : disk parsed)
  : response * State * disk parsed :=
  if negb (truthy deviceId) then (Error 400 "deviceId required", state, fs)
  else
    let allow' :=
      if negb (includes deviceId (allow state)) then push deviceId (allow state)
      else allow state in
    let state' := MkState (adminToken state) allow' (filter_ne deviceId (block state)) in
    (Allow_list (allow state'), state', saveData state' fs).

(** [POST /block] *)
Definition op_block (deviceId : string) (state : State) (fs : disk parsed)
  : response * State * disk parsed :=
  if negb (truthy deviceId) then (Error 400 "deviceId required", state, fs)
  else
    let block' :=
      if negb (includes deviceId (block state)) then push deviceId (block state)
      else block state in
    let state' := MkState (adminToken state) (filter_ne deviceId (allow state)) block' in
    (Block_list (block state'), state', saveData state' fs).

(** [DELETE /allow]: no test of [deviceId]. *)
Definition op_unallow (deviceId : string) (state : State) (fs : disk parsed)
  : response * State * disk parsed :=
  let state' := MkState (adminToken state) (filter_ne deviceId (allow state)) (block state) in
  (Allow_list (allow state'), state', saveData state' fs).

(** [DELETE /block] *)
Definition op_unblock (deviceId : string) (state : State) (fs : disk parsed)
  : response * State * disk parsed :=
  let state' := MkState (adminToken state) (allow state) (filter_ne deviceId (block state)) in
  (Block_list (block state'), state', saveData state' fs).

(** *** The request handler

    [String(searchParams.get('deviceId') || '').trim()] and
    [String(body.deviceId || '').trim()] give the local [deviceId]. *)
Definition query_deviceId (req : request) : string :=
  trim (or_empty (get "deviceId" (searchParams req))).

Definition body_deviceId (req : request) : string :=
  trim (or_empty (readBody (payload req))).

Definition server (req : request) (state : State) (fs : disk parsed)
  : response * State * disk parsed :=
  if String.eqb (method req) "OPTIONS" then (Empty_object 200, state, fs)
  else if String.eqb (pathname req) "/health" then (Health None, state, fs)
  else if String.eqb (pathname req) "/check" && String.eqb (method req) "GET" then
    (op_check (query_deviceId req) state, state, fs)
  else if negb (isAuthorized req state) then (unauthorized, state, fs)
  else if String.eqb (pathname req) "/list" && String.eqb (method req) "GET" then
    (op_list state, state, fs)
  else if String.eqb (pathname req) "/allow" && String.eqb (method req) "POST" then
    op_allow (body_deviceId req) state fs
  else if String.eqb (pathname req) "/block" && String.eqb (method req) "POST" then
    op_block (body_deviceId req) state fs
  else if String.eqb (pathname req) "/allow" && String.eqb (method req) "DELETE" then
    op_unallow (query_deviceId req) state fs
  else if String.eqb (pathname req) "/block" && String.eqb (method req) "DELETE" then
    op_unblock (query_deviceId req) state fs
  else (notFound, state, fs).

(** The states of a run: [loadData] at start, then any number of requests,
    while the environment may change the permission of the file. *)
Inductive reachable (env : option string) (fs0 : disk parsed)
  : State * disk parsed -> Prop :=
| reach_start : reachable env fs0 (loadData env fs0)
| reach_request req state fs :
    reachable env fs0 (state, fs) ->
    reachable env fs0 (let '(_, state', fs') := server req state fs in (state', fs'))
| reach_chmod w state fs :
    reachable env fs0 (state, fs) ->
    reachable env fs0 (state, chmod w fs).

End V1.

(** ** The second version: every request reloads the file *)
Module V2.
Import JS Http.

Definition DEFAULT_ADMIN_TOKEN (env : option string) : string :=
  or_string env "admin_7f9e2a1b_8c4d_9e5f_0a1b_2c3d4e5f6a7b".

(** The object that [JSON.parse] builds from [server.json]; each member may
    be absent, a member of another type than the layout's is outside the
    model. *)
Record parsed : Type := Parsed {
  p_adminToken : option string;
  p_allow : option (list string);
  p_block : option (list string);
  p_pending : option (list string);
  p_lastSeen : option (gmap string string)
}.

(** The object returned by [loadServerData], called [serverData] by the
    handlers. *)
Record ServerData : Type := MkData {
  adminToken : string;
  allow : list string;
  block : list string;
  pending : list string;
  lastSeen : gmap string string
}.

Definition JSON_stringify (d : ServerData) : parsed :=
  Parsed (Some (adminToken d)) (Some (allow d)) (Some (block d))
         (Some (pending d)) (Some (lastSeen d)).

Definition seed (env : option string) : ServerData :=
  MkData (DEFAULT_ADMIN_TOKEN env) [] [] [] ∅.

(** The object literal built from [parsed] in [loadServerData]. *)
Definition of_parsed (env : option string) (p : parsed) : ServerData :=
  MkData (or_string (p_adminToken p) (DEFAULT_ADMIN_TOKEN env))
         (or_default (p_allow p) [])
         (or_default (p_block p) [])
         (or_default (p_pending p) [])
         (or_default (p_lastSeen p) ∅).

(** The first [try] of [loadServerData]: [Some] when it returns, [None] when
    the file does not exist or an exception reaches the [catch]. *)
Definition read_stored (env : option string) (fs : disk parsed) : option ServerData :=
  if existsSync fs then
    data ← readFileSync fs;
    p ← JSON_parse data;
    Some (of_parsed env p)
  else None.

Definition loadServerData (env : option string) (fs : disk parsed)
  : ServerData * disk parsed :=
  match read_stored env fs with
  | Some d => (d, fs)
  | None => (seed env, try_write fs (JSON_stringify (seed env)))
  end.

Definition saveServerData (data : ServerData) (fs : disk parsed) : disk parsed :=
  try_write fs (JSON_stringify data).

Definition authenticateRequest (env : option string) (req : request) (fs : disk parsed)
  : bool * disk parsed :=
  match authorization req with
  | None => (false, fs)
  | Some authHeader =>
      if negb (truthy authHeader) || negb (startsWith "Bearer " authHeader)
      then (false, fs)
      else
        let token := slice 7 authHeader in
        let '(serverData, fs) := loadServerData env fs in
        (String.eqb token (adminToken serverData), fs)
  end.

Definition set_lastSeen (m : gmap string string) (d : ServerData) : ServerData :=
  MkData (adminToken d) (allow d) (block d) (pending d) m.
Definition set_pending (l : list string) (d : ServerData) : ServerData :=
  MkData (adminToken d) (allow d) (block d) l (lastSeen d).
Definition set_allow (l : list string) (d : ServerData) : ServerData :=
  MkData (adminToken d) l (block d) (pending d) (lastSeen d).
Definition set_block (l : list string) (d : ServerData) : ServerData :=
  MkData (adminToken d) (allow d) l (pending d) (lastSeen d).

(** *** The operations, as functions of the local constant [deviceId] *)

(** Each handler loads the store, changes the loaded object and saves it.
    The change is written as a function of the loaded object. *)

(** [/check] after [loadServerData]: the new [lastSeen], the three branches
    and the answer of each; [now] is [new Date().toISOString()]. *)
Definition check_update (deviceId now : string) (serverData : ServerData)
  : response * ServerData :=
  let serverData := set_lastSeen (assign (lastSeen serverData) deviceId now) serverData in
  if includes deviceId (allow serverData) then
    (Decision 200 true false 30 "", serverData)
  else if includes deviceId (block serverData) then
    (Decision 200 false true 30 "device blocked", serverData)
  else
    let serverData :=
      if negb (includes deviceId (pending serverData))
      then set_pending (push deviceId (pending serverData)) serverData
      else serverData in
    (Decision 200 false true 30 "not allowed", serverData).

(** [/check], from the test of [deviceId] on.  Every branch saves. *)
Definition op_check (env : option string) (deviceId now : string) (fs : disk parsed)
  : response * disk parsed :=
  if negb (truthy deviceId) then (Decision 400 false true 30 "missing deviceId", fs)
  else
    let '(serverData, fs) := loadServerData env fs in
    let '(answer, serverData) := check_update deviceId now serverData in
    (answer, saveServerData serverData fs).

Definition op_list (env : option string) (fs : disk parsed) : response * disk parsed :=
  let '(serverData, fs) := loadServerData env fs in
  (Listing (allow serverData) (block serverData)
           (Some (pending serverData)) (Some (lastSeen serverData)), fs).

Definition allow_update (deviceId : string) (serverData : ServerData) : ServerData :=
  let serverData := set_pending (filter_ne deviceId (pending serverData)) serverData in
  let serverData := set_block (filter_ne deviceId (block serverData)) serverData in
  if negb (includes deviceId (allow serverData))
  then set_allow (push deviceId (allow serverData)) serverData
  else serverData.

(** [POST /allow], the body of the [try] after [JSON.parse(body)]; an absent
    [deviceId] is falsy like the empty string. *)
Definition op_allow (env : option string) (deviceId : string) (fs : disk parsed)
  : response * disk parsed :=
  if negb (truthy deviceId) then (Error 400 "deviceId required", fs)
  else
    let '(serverData, fs) := loadServerData env fs in
    let serverData := allow_update deviceId serverData in
    (Allow_list (allow serverData), saveServerData serverData fs).

Definition block_update (deviceId : string) (serverData : ServerData) : ServerData :=
  let serverData := set_pending (filter_ne deviceId (pending serverData)) serverData in
  let serverData := set_allow (filter_ne deviceId (allow serverData)) serverData in
  if negb (includes deviceId (block serverData))
  then set_block (push deviceId (block serverData)) serverData
  else serverData.

(** [POST /block] *)
Definition op_block (env : option string) (deviceId : string) (fs : disk parsed)
  : response * disk parsed :=
  if negb (truthy deviceId) then (Error 400 "deviceId required", fs)
  else
    let '(serverData, fs) := loadServerData env fs in
    let serverData := block_update deviceId serverData in
    (Block_list (block serverData), saveServerData serverData fs).

(** [DELETE /allow] *)
Definition op_unallow (env : option string) (deviceId : string) (fs : disk parsed)
  : response * disk parsed :=
  if negb (truthy deviceId) then (Error 400 "deviceId required", fs)
  else
    let '(serverData, fs) := loadServerData env fs in
    let serverData := set_allow (filter_ne deviceId (allow serverData)) serverData in
    (Allow_list (allow serverData), saveServerData serverData fs).

(** [DELETE /block] *)
Definition op_unblock (env : option string) (deviceId : string) (fs : disk parsed)
  : response * disk parsed :=
  if negb (truthy deviceId) then (Error 400 "deviceId required", fs)
  else
    let '(serverData, fs) := loadServerData env fs in
    let serverData := set_block (filter_ne deviceId (block serverData)) serverData in
    (Block_list (block serverData), saveServerData serverData fs).

(** [DELETE /pending] *)
Definition op_clearPending (env : option string) (fs : disk parsed)
  : response * disk parsed :=
  let '(serverData, fs) := loadServerData env fs in
  let serverData := set_pending [] serverData in
  (Pending_list [], saveServerData serverData fs).

(** *** The request handler *)

(** [String(searchParams.get('deviceId') || '').trim()], used by [/check]. *)
Definition check_deviceId (req : request) : string :=
  trim (or_empty (get "deviceId" (searchParams req))).

(** The [end] callback of [POST /allow] and [POST /block]: [JSON.parse(body)]
    throws on no data and on bad data, and the [catch] answers. *)
Definition with_body (b : body) (k : string -> disk parsed -> response * disk parsed)
  (fs : disk parsed) : response * disk parsed :=
  match b with
  | JsonObject deviceId => k (or_empty deviceId) fs
  | _ => (Error 400 "Invalid JSON", fs)
  end.

Definition server (env : option string) (req : request) (now : string) (fs : disk parsed)
  : response * disk parsed :=
  if String.eqb (method req) "OPTIONS" then (Empty_object 200, fs)
  else if String.eqb (pathname req) "/health" then (Health (Some now), fs)
  else if String.eqb (pathname req) "/check" then
    op_check env (check_deviceId req) now fs
  else
    let '(ok, fs) := authenticateRequest env req fs in
    if negb ok then (Error 401 "Unauthorized", fs)
    else if String.eqb (pathname req) "/list" then op_list env fs
    else if String.eqb (pathname req) "/allow" && String.eqb (method req) "POST" then
      with_body (payload req) (op_allow env) fs
    else if String.eqb (pathname req) "/block" && String.eqb (method req) "POST" then
      with_body (payload req) (op_block env) fs
    else if String.eqb (pathname req) "/allow" && String.eqb (method req) "DELETE" then
      op_unallow env (or_empty (get "deviceId" (searchParams req))) fs
    else if String.eqb (pathname req) "/block" && String.eqb (method req) "DELETE" then
      op_unblock env (or_empty (get "deviceId" (searchParams req))) fs
    else if String.eqb (pathname req) "/pending" && String.eqb (method req) "DELETE" then
      op_clearPending env fs
    else (Error 404 "Not found", fs).

(** The store as the next request finds it. *)
Definition view (env : option string) (fs : disk parsed) : ServerData :=
  fst (loadServerData env fs).

(** The files of a run that starts from [fs0]: any number of requests, while
    the environment may change the permission of the file. *)
Inductive reachable (env : option string) (fs0 : disk parsed) : disk parsed -> Prop :=
| reach_start : reachable env fs0 fs0
| reach_request req now fs :
    reachable env fs0 fs -> reachable env fs0 (snd (server env req now fs))
| reach_chmod w fs :
    reachable env fs0 fs -> reachable env fs0 (chmod w fs).

End V2.

(** ** Invariant I1 *)

(** No identifier is in both lists. *)
Definition I1 (allow block : list string) : Prop :=
  forall d : string, ~ (d ∈ allow /\ d ∈ block).

(** ** Sample runs

    A first start (no [server.json] yet, no [ADMIN_TOKEN] in the environment)
    and the requests used to run the two servers on concrete inputs. *)
Module Run.
Import JS Http.

Definition token : string := "admin_7f9e2a1b_8c4d_9e5f_0a1b_2c3d4e5f6a7b".
Definition bearer : option string := Some ("Bearer " ++ token)%string.

Definition first_start {A : Type} : disk A := Disk Missing true.
Definition read_only {A : Type} : disk A := Disk Missing false.
Definition write_only {A : Type} : disk A := Disk Unreadable true.

Definition GET_check (deviceId : string) : request :=
  Request "GET" "/check" [("deviceId", deviceId)] None NoBody.
Definition GET_list : request :=
  Request "GET" "/list" [] bearer NoBody.
Definition POST_allow (deviceId : string) : request :=
  Request "POST" "/allow" [] bearer (JsonObject (Some deviceId)).
Definition POST_block (deviceId : string) : request :=
  Request "POST" "/block" [] bearer (JsonObject (Some deviceId)).

Definition t1 : string := "2025-01-01T00:00:00.000Z".
Definition t2 : string := "2025-01-01T00:00:30.000Z".

End Run.

(** ** Predicates on stores *)
Module Props.
Import JS Http.

(** An identifier that is not empty and that [trim] leaves as it is. *)
Definition normalized (x : string) : Prop := x <> "" /\ trim x = x.

Definition all_normalized (l : list string) : Prop :=
  forall x : string, x ∈ l -> normalized x.

(** Invariant I2 of the second version: a pending identifier is neither
    allowed nor blocked. *)
Definition I2 (d : V2.ServerData) : Prop :=
  forall x : string, x ∈ V2.pending d -> (x ∉ V2.allow d) /\ (x ∉ V2.block d).

(** No list of the store holds an identifier twice. *)
Definition V1_no_duplicates (s : V1.State) : Prop :=
  NoDup (V1.allow s) /\ NoDup (V1.block s).

Definition V2_no_duplicates (d : V2.ServerData) : Prop :=
  NoDup (V2.allow d) /\ NoDup (V2.block d) /\ NoDup (V2.pending d).

(** The request with another [Authorization] header. *)
Definition with_authorization (h : option string) (req : request) : request :=
  Request (method req) (pathname req) (searchParams req) h (payload req).

(** The decisions that [/check] can send: [forceExit] is the negation of
    [allowed] and the interval is 30 seconds. *)
Definition well_formed_decision (r : response) : bool :=
  match r with
  | Decision _ allowed forceExit intervalSec _ =>
      Bool.eqb forceExit (negb allowed) && Z.eqb intervalSec 30
  | _ => false
  end.

End Props.

(** ** Concurrent requests

    Node.js runs one callback at a time, to its end.  A handler is
    interrupted only where it waits: the first version at
    [await readBody(req)] in [POST /allow] and [POST /block], the second
    where [POST /allow] and [POST /block] return after registering the [end]
    callback that does the work.  Every other route runs in one piece.  Each
    request is therefore one or two segments, and a run of concurrent
    requests is a schedule that picks which request runs its next segment. *)
Module Loop.
Import JS Http.

(** Where a request waits for its body. *)
Inductive awaiting : Type := Await_allow | Await_block.

Inductive thread : Type :=
| Fresh (req : request)                        (* not started *)
| Waiting (a : awaiting) (req : request)       (* waits for its body *)
| Finished (r : response).                     (* answered *)



(** *** First version *)

(** The handler up to [await readBody(req)]: it answers, or it waits. *)
Definition V1_begin (req : request) (state : V1.State) (fs : disk V1.parsed)
  : (response * V1.State * disk V1.parsed) + awaiting :=
  if String.eqb (method req) "OPTIONS" then inl (Empty_object 200, state, fs)
  else if String.eqb (pathname req) "/health" then inl (Health None, state, fs)
  else if String.eqb (pathname req) "/check" && String.eqb (method req) "GET" then
    inl (V1.op_check (V1.query_deviceId req) state, state, fs)
  else if negb (V1.isAuthorized req state) then inl (V1.unauthorized, state, fs)
  else if String.eqb (pathname req) "/list" && String.eqb (method req) "GET" then
    inl (V1.op_list state, state, fs)
  else if String.eqb (pathname req) "/allow" && String.eqb (method req) "POST" then
    inr Await_allow
  else if String.eqb (pathname req) "/block" && String.eqb (method req) "POST" then
    inr Await_block
  else if String.eqb (pathname req) "/allow" && String.eqb (method req) "DELETE" then
    inl (V1.op_unallow (V1.query_deviceId req) state fs)
  else if String.eqb (pathname req) "/block" && String.eqb (method req) "DELETE" then
    inl (V1.op_unblock (V1.query_deviceId req) state fs)
  else inl (V1.notFound, state, fs).

(** The handler after the body has arrived, on the state of that moment. *)
Definition V1_resume (a : awaiting) (req : request) (state : V1.State)
    (fs : disk V1.parsed) : response * V1.State * disk V1.parsed :=
  match a with
  | Await_allow => V1.op_allow (V1.body_deviceId req) state fs
  | Await_block => V1.op_block (V1.body_deviceId req) state fs
  end.

(** One turn of the event loop for one request. *)
Definition V1_turn (t : thread) (state : V1.State) (fs : disk V1.parsed)
  : thread * V1.State * disk V1.parsed :=
  match t with
  | Fresh req =>
      match V1_begin req state fs with
      | inl (r, state', fs') => (Finished r, state', fs')
      | inr a => (Waiting a req, state, fs)
      end
  | Waiting a req =>
      let '(r, state', fs') := V1_resume a req state fs in (Finished r, state', fs')
  | Finished _ => (t, state, fs)
  end.

(** A schedule names, turn after turn, the request that runs. *)
Fixpoint V1_run (schedule : list nat) (pool : list thread) (state : V1.State)
    (fs : disk V1.parsed) : list thread * V1.State * disk V1.parsed :=
  match schedule with
  | [] => (pool, state, fs)
  | i :: rest =>
      match pool !! i with
      | Some t =>
          let '(t', state', fs') := V1_turn t state fs in
          V1_run rest (<[i := t']> pool) state' fs'
      | None => V1_run rest pool state fs
      end
  end.

(** *** Second version *)

Definition answered (x : response * disk V2.parsed)
  : (response + awaiting) * disk V2.parsed := (inl (fst x), snd x).

(** The handler up to its [return]: the routes that wait have called
    [authenticateRequest], which loads the file. *)
Definition V2_begin (env : option string) (req : request) (now : string)
    (fs : disk V2.parsed) : (response + awaiting) * disk V2.parsed :=
  if String.eqb (method req) "OPTIONS" then (inl (Empty_object 200), fs)
  else if String.eqb (pathname req) "/health" then (inl (Health (Some now)), fs)
  else if String.eqb (pathname req) "/check" then
    answered (V2.op_check env (V2.check_deviceId req) now fs)
  else
    let '(ok, fs) := V2.authenticateRequest env req fs in
    if negb ok then (inl (Error 401 "Unauthorized"), fs)
    else if String.eqb (pathname req) "/list" then answered (V2.op_list env fs)
    else if String.eqb (pathname req) "/allow" && String.eqb (method req) "POST" then
      (inr Await_allow, fs)
    else if String.eqb (pathname req) "/block" && String.eqb (method req) "POST" then
      (inr Await_block, fs)
    else if String.eqb (pathname req) "/allow" && String.eqb (method req) "DELETE" then
      answered (V2.op_unallow env (or_empty (get "deviceId" (searchParams req))) fs)
    else if String.eqb (pathname req) "/block" && String.eqb (method req) "DELETE" then
      answered (V2.op_unblock env (or_empty (get "deviceId" (searchParams req))) fs)
    else if String.eqb (pathname req) "/pending" && String.eqb (method req) "DELETE" then
      answered (V2.op_clearPending env fs)
    else (inl (Error 404 "Not found"), fs).

(** The [end] callback, on the file of that moment. *)
Definition V2_resume (env : option string) (a : awaiting) (req : request)
    (fs : disk V2.parsed) : response * disk V2.parsed :=
  match a with
  | Await_allow => V2.with_body (payload req) (V2.op_allow env) fs
  | Await_block => V2.with_body (payload req) (V2.op_block env) fs
  end.




End Loop.

(** ** JavaScript helpers: basic facts *)
Section js_facts.
Import JS.

Lemma truthy_true (s : string) : truthy s = true <-> s <> "".
Proof.
  unfold truthy. rewrite negb_true_iff. split.
  - intros H ->. discriminate.
  - intros H. apply String.eqb_neq. exact H.
Qed.

Lemma truthy_false (s : string) : truthy s = false <-> s = "".
Proof.
  unfold truthy. rewrite negb_false_iff. apply String.eqb_eq.
Qed.

Lemma includes_true (x : string) (l : list string) : includes x l = true <-> x ∈ l.
Proof.
  unfold includes. rewrite existsb_exists, list_elem_of_In. split.
  - intros (y & Hy & Heq). apply String.eqb_eq in Heq. now subst.
  - intros H. exists x. split; [exact H | apply String.eqb_refl].
Qed.

Lemma includes_false (x : string) (l : list string) : includes x l = false <-> x ∉ l.
Proof.
  rewrite <- includes_true. destruct (includes x l); split; congruence.
Qed.

Lemma elem_of_filter_ne (x y : string) (l : list string) :
  y ∈ filter_ne x l <-> y ∈ l /\ y <> x.
Proof.
  unfold filter_ne. rewrite !list_elem_of_In, filter_In, negb_true_iff.
  now rewrite String.eqb_neq.
Qed.

Lemma not_elem_of_filter_ne (x : string) (l : list string) : x ∉ filter_ne x l.
Proof. rewrite elem_of_filter_ne. tauto. Qed.

Lemma filter_ne_id (x : string) (l : list string) : x ∉ l -> filter_ne x l = l.
Proof.
  unfold filter_ne. induction l as [|y l IH]; intros Hx; [reflexivity|].
  apply not_elem_of_cons in Hx as [Hne Hx]. simpl.
  destruct (String.eqb_spec y x) as [->|_]; [congruence|].
  simpl. now rewrite IH.
Qed.

Lemma filter_ne_idem (x : string) (l : list string) :
  filter_ne x (filter_ne x l) = filter_ne x l.
Proof. apply filter_ne_id, not_elem_of_filter_ne. Qed.

Lemma elem_of_push (x y : string) (l : list string) : y ∈ push x l <-> y ∈ l \/ y = x.
Proof. unfold push. rewrite elem_of_app, list_elem_of_singleton. tauto. Qed.

Lemma or_string_truthy (x : option string) (d : string) :
  truthy d = true -> truthy (or_string x d) = true.
Proof.
  intros Hd. unfold or_string. destruct x as [s|]; [|exact Hd].
  destruct (truthy s) eqn:E; [exact E | exact Hd].
Qed.

Lemma or_string_id (s d : string) : truthy s = true -> or_string (Some s) d = s.
Proof. intros H. unfold or_string. now rewrite H. Qed.

(** *** [trim] is idempotent *)

Lemma trimEnd_idem (s : string) : trimEnd (trimEnd s) = trimEnd s.
Proof.
  induction s as [|c r IH]; [reflexivity|].
  simpl. destruct (trimEnd r) as [|c' r'] eqn:E.
  - destruct (is_white_space c) eqn:W; [reflexivity|]. simpl. now rewrite W.
  - simpl. simpl in IH. destruct (trimEnd r') as [|c'' r''] eqn:E'.
    + destruct (is_white_space c') eqn:W'; [discriminate IH|].
      now rewrite IH.
    + now rewrite IH.
Qed.

Lemma trimStart_head (c : ascii) (r : string) :
  is_white_space c = false -> trimStart (String c r) = String c r.
Proof. intros W. simpl. now rewrite W. Qed.

Lemma trimEnd_head (c : ascii) (r : string) :
  is_white_space c = false -> exists r', trimEnd (String c r) = String c r'.
Proof.
  intros W. simpl. destruct (trimEnd r) as [|c' r'].
  - rewrite W. now exists "".
  - now exists (String c' r').
Qed.

Lemma trimStart_shape (s : string) :
  trimStart s = "" \/ exists c r, trimStart s = String c r /\ is_white_space c = false.
Proof.
  induction s as [|c r IH]; [now left|].
  simpl. destruct (is_white_space c) eqn:W; [exact IH|].
  right. now exists c, r.
Qed.

Lemma trim_shape (s : string) :
  trim s = "" \/ exists c r, trim s = String c r /\ is_white_space c = false.
Proof.
  unfold trim. destruct (trimStart_shape s) as [->|(c & r & -> & W)]; [now left|].
  destruct (trimEnd_head c r W) as [r' ->]. right. now exists c, r'.
Qed.

Lemma trim_idem (s : string) : trim (trim s) = trim s.
Proof.
  destruct (trim_shape s) as [->|(c & r & E & W)]; [reflexivity|].
  unfold trim at 1. rewrite E, (trimStart_head c r W), <- E.
  unfold trim. apply trimEnd_idem.
Qed.

Lemma assign_lookup (o : gmap string string) (k v : string) :
  k <> "__proto__" -> assign o k v !! k = Some v.
Proof.
  intros H. unfold assign. apply String.eqb_neq in H. rewrite H.
  apply lookup_insert_eq.
Qed.

End js_facts.

(** ** The file of the second version: loading and saving *)
Section v2_store.
Import JS Http V2.
Variable env : option string.

Lemma DEFAULT_ADMIN_TOKEN_truthy : truthy (DEFAULT_ADMIN_TOKEN env) = true.
Proof. unfold DEFAULT_ADMIN_TOKEN. now apply or_string_truthy. Qed.

Lemma load_pair (fs : disk parsed) :
  loadServerData env fs = (view env fs, snd (loadServerData env fs)).
Proof. unfold view. now destruct (loadServerData env fs). Qed.

Lemma view_adminToken (fs : disk parsed) : truthy (adminToken (view env fs)) = true.
Proof.
  unfold view, loadServerData. destruct (read_stored env fs) as [d|] eqn:E.
  - unfold read_stored in E. destruct (existsSync fs); [|discriminate].
    destruct (readFileSync fs) as [data|]; [|discriminate]. simpl in E.
    destruct (JSON_parse data) as [p|]; [|discriminate]. simpl in E.
    injection E as <-. simpl. apply or_string_truthy, DEFAULT_ADMIN_TOKEN_truthy.
  - apply DEFAULT_ADMIN_TOKEN_truthy.
Qed.

Lemma try_write_locked (fs : disk parsed) (v : parsed) :
  writable fs = false -> try_write fs v = fs.
Proof. intros H. unfold try_write, writeFileSync. now rewrite H. Qed.

Lemma try_write_open (fs : disk parsed) (v : parsed) :
  writable fs = true -> try_write fs v = Disk (written (content fs) v) true.
Proof. intros H. unfold try_write, writeFileSync. now rewrite H. Qed.

Lemma retains_true (fs : disk parsed) :
  retains fs = true <-> writable fs = true /\ content fs <> Unreadable.
Proof.
  unfold retains. rewrite andb_true_iff.
  destruct (content fs); split; intros [H1 H2]; split; try assumption;
    try discriminate; try reflexivity. now destruct H2.
Qed.

Lemma try_write_retained (fs : disk parsed) (v : parsed) :
  retains fs = true -> try_write fs v = Disk (Readable (Json v)) true.
Proof.
  intros H. apply retains_true in H as [W C]. rewrite try_write_open by exact W.
  destruct (content fs); try reflexivity. now destruct C.
Qed.

Lemma writable_try_write (fs : disk parsed) (v : parsed) :
  writable (try_write fs v) = writable fs.
Proof.
  destruct (writable fs) eqn:H.
  - now rewrite try_write_open.
  - now rewrite try_write_locked.
Qed.

Lemma retains_try_write (fs : disk parsed) (v : parsed) :
  retains (try_write fs v) = retains fs.
Proof.
  destruct (writable fs) eqn:H.
  - rewrite try_write_open by exact H. unfold retains. rewrite H. simpl.
    now destruct (content fs).
  - now rewrite try_write_locked.
Qed.

Lemma writable_load (fs : disk parsed) :
  writable (snd (loadServerData env fs)) = writable fs.
Proof.
  unfold loadServerData. destruct (read_stored env fs); [reflexivity|].
  apply writable_try_write.
Qed.

Lemma retains_load (fs : disk parsed) :
  retains (snd (loadServerData env fs)) = retains fs.
Proof.
  unfold loadServerData. destruct (read_stored env fs); [reflexivity|].
  apply retains_try_write.
Qed.

Lemma load_locked (fs : disk parsed) :
  writable fs = false -> snd (loadServerData env fs) = fs.
Proof.
  intros H. unfold loadServerData. destruct (read_stored env fs); [reflexivity|].
  now apply try_write_locked.
Qed.

(** Reading back what was written. *)
Lemma view_written (d : ServerData) :
  truthy (adminToken d) = true ->
  view env (Disk (Readable (Json (JSON_stringify d))) true) = d.
Proof.
  intros H. unfold view, loadServerData, read_stored, of_parsed.
  cbn -[or_string]. rewrite or_string_id by exact H. now destruct d.
Qed.

(** A file that cannot be read gives the seed, whatever was written to it. *)
Lemma view_unreadable (fs : disk parsed) :
  content fs = Unreadable -> view env fs = seed env.
Proof.
  intros H. unfold view, loadServerData, read_stored, existsSync, readFileSync.
  now rewrite H.
Qed.

(** A write that the file does not retain leaves the store as it was. *)
Lemma view_try_write_lost (fs : disk parsed) (v : parsed) :
  retains fs = false -> view env (try_write fs v) = view env fs.
Proof.
  intros H. destruct (writable fs) eqn:W.
  - rewrite try_write_open by exact W. unfold retains in H. rewrite W in H.
    destruct (content fs) eqn:C; try discriminate H. simpl.
    now rewrite (view_unreadable fs C).
  - now rewrite try_write_locked.
Qed.

Lemma view_load (fs : disk parsed) :
  view env (snd (loadServerData env fs)) = view env fs.
Proof.
  unfold view at 2. unfold loadServerData.
  destruct (read_stored env fs) as [d|] eqn:E.
  - simpl. unfold view, loadServerData. now rewrite E.
  - simpl. destruct (retains fs) eqn:R.
    + rewrite try_write_retained by exact R.
      apply view_written, DEFAULT_ADMIN_TOKEN_truthy.
    + rewrite view_try_write_lost by exact R.
      unfold view, loadServerData. now rewrite E.
Qed.

(** The store after [saveServerData]: the saved object when the file retains
    the write, the old store when the write is refused or cannot be read
    back. *)
Lemma view_save (d : ServerData) (fs : disk parsed) :
  truthy (adminToken d) = true ->
  view env (saveServerData d (snd (loadServerData env fs)))
  = if retains fs then d else view env fs.
Proof.
  intros H. unfold saveServerData. destruct (retains fs) eqn:R.
  - rewrite try_write_retained by now rewrite retains_load.
    now apply view_written.
  - rewrite view_try_write_lost by now rewrite retains_load.
    apply view_load.
Qed.

Lemma writable_save (d : ServerData) (fs : disk parsed) :
  writable (saveServerData d fs) = writable fs.
Proof. apply writable_try_write. Qed.

Lemma retains_save (d : ServerData) (fs : disk parsed) :
  retains (saveServerData d fs) = retains fs.
Proof. apply retains_try_write. Qed.

(** A writable file that does not retain is a file that cannot be read. *)
Lemma view_write_only (fs : disk parsed) :
  writable fs = true -> retains fs = false -> view env fs = seed env.
Proof.
  intros W R. unfold retains in R. rewrite W in R.
  destruct (content fs) eqn:C; try discriminate R. now apply view_unreadable.
Qed.

Lemma view_chmod (w : bool) (fs : disk parsed) : view env (chmod w fs) = view env fs.
Proof.
  unfold view, loadServerData, read_stored, existsSync, readFileSync, chmod.
  simpl. destruct (content fs) as [| |raw]; try reflexivity.
  simpl. now destruct (JSON_parse raw).
Qed.

End v2_store.

(** ** The operations of the second version, seen through the store *)
Section v2_operations.
Import JS Http V2.
Variable env : option string.

Lemma check_update_adminToken (d now : string) (sd : ServerData) :
  adminToken (snd (check_update d now sd)) = adminToken sd.
Proof.
  unfold check_update. simpl.
  destruct (includes d (allow sd)); [reflexivity|].
  destruct (includes d (block sd)); [reflexivity|].
  now destruct (includes d (pending sd)).
Qed.

Lemma allow_update_adminToken (d : string) (sd : ServerData) :
  adminToken (allow_update d sd) = adminToken sd.
Proof. unfold allow_update. simpl. now destruct (includes d (allow sd)). Qed.

Lemma block_update_adminToken (d : string) (sd : ServerData) :
  adminToken (block_update d sd) = adminToken sd.
Proof. unfold block_update. simpl. now destruct (includes d (block sd)). Qed.

Lemma op_check_answer (d now : string) (fs : disk parsed) :
  truthy d = true ->
  fst (op_check env d now fs) = fst (check_update d now (view env fs)).
Proof.
  intros H. unfold op_check. rewrite H, (load_pair env fs). simpl.
  now destruct (check_update d now (view env fs)).
Qed.

Lemma op_check_view (d now : string) (fs : disk parsed) :
  truthy d = true ->
  view env (snd (op_check env d now fs))
  = if retains fs then snd (check_update d now (view env fs)) else view env fs.
Proof.
  intros H. unfold op_check. rewrite H, (load_pair env fs). simpl.
  destruct (check_update d now (view env fs)) as [r sd] eqn:E. simpl.
  apply view_save.
  change sd with (snd (r, sd)). rewrite <- E, check_update_adminToken.
  apply view_adminToken.
Qed.

Lemma op_allow_view (d : string) (fs : disk parsed) :
  truthy d = true ->
  view env (snd (op_allow env d fs))
  = if retains fs then allow_update d (view env fs) else view env fs.
Proof.
  intros H. unfold op_allow. rewrite H, (load_pair env fs). simpl.
  apply view_save. rewrite allow_update_adminToken. apply view_adminToken.
Qed.

Lemma op_block_view (d : string) (fs : disk parsed) :
  truthy d = true ->
  view env (snd (op_block env d fs))
  = if retains fs then block_update d (view env fs) else view env fs.
Proof.
  intros H. unfold op_block. rewrite H, (load_pair env fs). simpl.
  apply view_save. rewrite block_update_adminToken. apply view_adminToken.
Qed.

Lemma op_unallow_view (d : string) (fs : disk parsed) :
  truthy d = true ->
  view env (snd (op_unallow env d fs))
  = if retains fs
    then set_allow (filter_ne d (allow (view env fs))) (view env fs)
    else view env fs.
Proof.
  intros H. unfold op_unallow. rewrite H, (load_pair env fs). simpl.
  apply view_save. simpl. apply view_adminToken.
Qed.

Lemma op_unblock_view (d : string) (fs : disk parsed) :
  truthy d = true ->
  view env (snd (op_unblock env d fs))
  = if retains fs
    then set_block (filter_ne d (block (view env fs))) (view env fs)
    else view env fs.
Proof.
  intros H. unfold op_unblock. rewrite H, (load_pair env fs). simpl.
  apply view_save. simpl. apply view_adminToken.
Qed.

Lemma op_clearPending_view (fs : disk parsed) :
  view env (snd (op_clearPending env fs))
  = if retains fs then set_pending [] (view env fs) else view env fs.
Proof.
  unfold op_clearPending. rewrite (load_pair env fs). simpl.
  apply view_save. simpl. apply view_adminToken.
Qed.

Lemma op_list_view (fs : disk parsed) : view env (snd (op_list env fs)) = view env fs.
Proof. unfold op_list. rewrite (load_pair env fs). simpl. apply view_load. Qed.

Lemma op_list_answer (fs : disk parsed) :
  fst (op_list env fs)
  = Listing (allow (view env fs)) (block (view env fs))
            (Some (pending (view env fs))) (Some (lastSeen (view env fs))).
Proof. unfold op_list. now rewrite (load_pair env fs). Qed.

Lemma authenticateRequest_view (req : request) (fs : disk parsed) :
  view env (snd (authenticateRequest env req fs)) = view env fs.
Proof.
  unfold authenticateRequest. destruct (authorization req) as [h|]; [|reflexivity].
  destruct (negb (truthy h) || negb (startsWith "Bearer " h)); [reflexivity|].
  rewrite (load_pair env fs). simpl. apply view_load.
Qed.

(** What the updates do to the two lists. *)
Lemma check_update_lists (d now : string) (sd : ServerData) :
  allow (snd (check_update d now sd)) = allow sd
  /\ block (snd (check_update d now sd)) = block sd.
Proof.
  unfold check_update. simpl.
  destruct (includes d (allow sd)); [now split|].
  destruct (includes d (block sd)); [now split|].
  now destruct (includes d (pending sd)).
Qed.

Lemma allow_update_allow (d : string) (sd : ServerData) (x : string) :
  x ∈ allow (allow_update d sd) <-> x ∈ allow sd \/ x = d.
Proof.
  unfold allow_update. simpl. destruct (includes d (allow sd)) eqn:E; simpl.
  - apply includes_true in E. split; [tauto|]. now intros [H| ->].
  - apply elem_of_push.
Qed.

Lemma allow_update_block (d : string) (sd : ServerData) :
  block (allow_update d sd) = filter_ne d (block sd).
Proof. unfold allow_update. simpl. now destruct (includes d (allow sd)). Qed.

Lemma allow_update_pending (d : string) (sd : ServerData) :
  pending (allow_update d sd) = filter_ne d (pending sd).
Proof. unfold allow_update. simpl. now destruct (includes d (allow sd)). Qed.

Lemma block_update_block (d : string) (sd : ServerData) (x : string) :
  x ∈ block (block_update d sd) <-> x ∈ block sd \/ x = d.
Proof.
  unfold block_update. simpl. destruct (includes d (block sd)) eqn:E; simpl.
  - apply includes_true in E. split; [tauto|]. now intros [H| ->].
  - apply elem_of_push.
Qed.

Lemma block_update_allow (d : string) (sd : ServerData) :
  allow (block_update d sd) = filter_ne d (allow sd).
Proof. unfold block_update. simpl. now destruct (includes d (block sd)). Qed.

Lemma block_update_pending (d : string) (sd : ServerData) :
  pending (block_update d sd) = filter_ne d (pending sd).
Proof. unfold block_update. simpl. now destruct (includes d (block sd)). Qed.

(** A second [allow] or [block] of the same identifier changes nothing. *)
Lemma allow_update_idem (d : string) (sd : ServerData) :
  allow_update d (allow_update d sd) = allow_update d sd.
Proof.
  unfold allow_update. simpl. destruct (includes d (allow sd)) eqn:E; simpl.
  - rewrite E. simpl. now rewrite !filter_ne_idem.
  - assert (includes d (push d (allow sd)) = true) as ->.
    { apply includes_true, elem_of_push. now right. }
    simpl. now rewrite !filter_ne_idem.
Qed.

Lemma block_update_idem (d : string) (sd : ServerData) :
  block_update d (block_update d sd) = block_update d sd.
Proof.
  unfold block_update. simpl. destruct (includes d (block sd)) eqn:E; simpl.
  - rewrite E. simpl. now rewrite !filter_ne_idem.
  - assert (includes d (push d (block sd)) = true) as ->.
    { apply includes_true, elem_of_push. now right. }
    simpl. now rewrite !filter_ne_idem.
Qed.

End v2_operations.

(** ** Invariant I1 is kept by every request *)
Section invariant_I1.
Import JS Http.

Lemma I1_nil_l (b : list string) : I1 [] b.
Proof. intros d [H _]. now apply not_elem_of_nil in H. Qed.

Lemma I1_sym (a b : list string) : I1 a b -> I1 b a.
Proof. intros H d [Hb Ha]. now apply (H d). Qed.

Lemma I1_filter_r (x : string) (a b : list string) : I1 a b -> I1 a (filter_ne x b).
Proof.
  intros H d [Ha Hb]. apply elem_of_filter_ne in Hb as [Hb _]. now apply (H d).
Qed.

Lemma I1_filter_l (x : string) (a b : list string) : I1 a b -> I1 (filter_ne x a) b.
Proof. intros H. apply I1_sym, I1_filter_r, I1_sym, H. Qed.

Lemma I1_push_filter (x : string) (a b : list string) :
  I1 a b -> I1 (push x a) (filter_ne x b).
Proof.
  intros H d [Ha Hb]. apply elem_of_filter_ne in Hb as [Hb Hne].
  apply elem_of_push in Ha as [Ha|Ha]; [now apply (H d) | contradiction].
Qed.

Lemma I1_move (x : string) (a b : list string) :
  I1 a b -> I1 (if negb (includes x a) then push x a else a) (filter_ne x b).
Proof.
  intros H. destruct (includes x a); simpl.
  - now apply I1_filter_r.
  - now apply I1_push_filter.
Qed.

(** *** First version *)

Lemma V1_server_I1 (req : request) (state : V1.State) (fs : disk V1.parsed) :
  I1 (V1.allow state) (V1.block state) ->
  I1 (V1.allow (snd (fst (V1.server req state fs))))
     (V1.block (snd (fst (V1.server req state fs)))).
Proof.
  intros H. unfold V1.server.
  repeat match goal with
         | |- context [if ?c then _ else _] => destruct c; try exact H
         end;
    unfold V1.op_allow, V1.op_block, V1.op_unallow, V1.op_unblock;
    repeat match goal with
           | |- context [negb (truthy ?d)] => destruct (negb (truthy d)); try exact H
           end; simpl.
  - now apply I1_move.
  - now apply I1_sym, I1_move, I1_sym.
  - now apply I1_filter_l.
  - now apply I1_filter_r.
Qed.

Lemma V1_reachable_I1 (env : option string) (fs0 : disk V1.parsed)
    (p : V1.State * disk V1.parsed) :
  I1 (V1.allow (fst (V1.loadData env fs0))) (V1.block (fst (V1.loadData env fs0))) ->
  V1.reachable env fs0 p ->
  I1 (V1.allow (fst p)) (V1.block (fst p)).
Proof.
  intros H0 Hr. induction Hr as [|req state fs _ IH|w state fs _ IH].
  - exact H0.
  - pose proof (V1_server_I1 req state fs IH) as H.
    destruct (V1.server req state fs) as [[r state'] fs']. exact H.
  - exact IH.
Qed.

(** *** Second version *)

Lemma V2_check_I1 (env : option string) (d now : string) (fs : disk V2.parsed) :
  I1 (V2.allow (V2.view env fs)) (V2.block (V2.view env fs)) ->
  I1 (V2.allow (V2.view env (snd (V2.op_check env d now fs))))
     (V2.block (V2.view env (snd (V2.op_check env d now fs)))).
Proof.
  intros H. destruct (truthy d) eqn:T.
  - rewrite op_check_view by exact T. destruct (retains fs); [|exact H].
    destruct (check_update_lists d now (V2.view env fs)) as [-> ->]. exact H.
  - unfold V2.op_check. rewrite T. exact H.
Qed.

Lemma V2_allow_I1 (env : option string) (d : string) (fs : disk V2.parsed) :
  I1 (V2.allow (V2.view env fs)) (V2.block (V2.view env fs)) ->
  I1 (V2.allow (V2.view env (snd (V2.op_allow env d fs))))
     (V2.block (V2.view env (snd (V2.op_allow env d fs)))).
Proof.
  intros H. destruct (truthy d) eqn:T.
  - rewrite op_allow_view by exact T. destruct (retains fs); [|exact H].
    intros x [Ha Hb]. rewrite allow_update_block in Hb.
    apply elem_of_filter_ne in Hb as [Hb Hne].
    apply allow_update_allow in Ha as [Ha|Ha]; [now apply (H x) | contradiction].
  - unfold V2.op_allow. rewrite T. exact H.
Qed.

Lemma V2_block_I1 (env : option string) (d : string) (fs : disk V2.parsed) :
  I1 (V2.allow (V2.view env fs)) (V2.block (V2.view env fs)) ->
  I1 (V2.allow (V2.view env (snd (V2.op_block env d fs))))
     (V2.block (V2.view env (snd (V2.op_block env d fs)))).
Proof.
  intros H. destruct (truthy d) eqn:T.
  - rewrite op_block_view by exact T. destruct (retains fs); [|exact H].
    intros x [Ha Hb]. rewrite block_update_allow in Ha.
    apply elem_of_filter_ne in Ha as [Ha Hne].
    apply block_update_block in Hb as [Hb|Hb]; [now apply (H x) | contradiction].
  - unfold V2.op_block. rewrite T. exact H.
Qed.

Lemma V2_unallow_I1 (env : option string) (d : string) (fs : disk V2.parsed) :
  I1 (V2.allow (V2.view env fs)) (V2.block (V2.view env fs)) ->
  I1 (V2.allow (V2.view env (snd (V2.op_unallow env d fs))))
     (V2.block (V2.view env (snd (V2.op_unallow env d fs)))).
Proof.
  intros H. destruct (truthy d) eqn:T.
  - rewrite op_unallow_view by exact T. destruct (retains fs); [|exact H].
    simpl. now apply I1_filter_l.
  - unfold V2.op_unallow. rewrite T. exact H.
Qed.

Lemma V2_unblock_I1 (env : option string) (d : string) (fs : disk V2.parsed) :
  I1 (V2.allow (V2.view env fs)) (V2.block (V2.view env fs)) ->
  I1 (V2.allow (V2.view env (snd (V2.op_unblock env d fs))))
     (V2.block (V2.view env (snd (V2.op_unblock env d fs)))).
Proof.
  intros H. destruct (truthy d) eqn:T.
  - rewrite op_unblock_view by exact T. destruct (retains fs); [|exact H].
    simpl. now apply I1_filter_r.
  - unfold V2.op_unblock. rewrite T. exact H.
Qed.

Lemma V2_clearPending_I1 (env : option string) (fs : disk V2.parsed) :
  I1 (V2.allow (V2.view env fs)) (V2.block (V2.view env fs)) ->
  I1 (V2.allow (V2.view env (snd (V2.op_clearPending env fs))))
     (V2.block (V2.view env (snd (V2.op_clearPending env fs)))).
Proof.
  intros H. rewrite op_clearPending_view. now destruct (retains fs).
Qed.

Lemma V2_server_I1 (env : option string) (req : request) (now : string)
    (fs : disk V2.parsed) :
  I1 (V2.allow (V2.view env fs)) (V2.block (V2.view env fs)) ->
  I1 (V2.allow (V2.view env (snd (V2.server env req now fs))))
     (V2.block (V2.view env (snd (V2.server env req now fs)))).
Proof.
  intros H. unfold V2.server.
  destruct (String.eqb (method req) "OPTIONS"); [exact H|].
  destruct (String.eqb (pathname req) "/health"); [exact H|].
  destruct (String.eqb (pathname req) "/check"); [now apply V2_check_I1|].
  pose proof (authenticateRequest_view env req fs) as Ha.
  destruct (V2.authenticateRequest env req fs) as [ok fs1]. simpl in Ha.
  rewrite <- Ha in H.
  destruct ok; simpl; [|exact H].
  destruct (String.eqb (pathname req) "/list").
  { now rewrite op_list_view. }
  destruct (String.eqb (pathname req) "/allow" && String.eqb (method req) "POST").
  { unfold V2.with_body. destruct (payload req); try exact H. now apply V2_allow_I1. }
  destruct (String.eqb (pathname req) "/block" && String.eqb (method req) "POST").
  { unfold V2.with_body. destruct (payload req); try exact H. now apply V2_block_I1. }
  destruct (String.eqb (pathname req) "/allow" && String.eqb (method req) "DELETE").
  { now apply V2_unallow_I1. }
  destruct (String.eqb (pathname req) "/block" && String.eqb (method req) "DELETE").
  { now apply V2_unblock_I1. }
  destruct (String.eqb (pathname req) "/pending" && String.eqb (method req) "DELETE").
  { now apply V2_clearPending_I1. }
  exact H.
Qed.

Lemma V2_reachable_I1 (env : option string) (fs0 fs : disk V2.parsed) :
  I1 (V2.allow (V2.view env fs0)) (V2.block (V2.view env fs0)) ->
  V2.reachable env fs0 fs ->
  I1 (V2.allow (V2.view env fs)) (V2.block (V2.view env fs)).
Proof.
  intros H0 Hr. induction Hr as [|req now fs _ IH|w fs _ IH].
  - exact H0.
  - now apply V2_server_I1.
  - now rewrite view_chmod.
Qed.

End invariant_I1.

(** ** From the request handler to the operations *)
Section routes.
Import JS Http.

Lemma V1_server_check (req : request) (state : V1.State) (fs : disk V1.parsed) :
  method req = "GET" -> pathname req = "/check" ->
  V1.server req state fs = (V1.op_check (V1.query_deviceId req) state, state, fs).
Proof. intros Hm Hp. unfold V1.server. now rewrite Hm, Hp. Qed.

Lemma V1_server_allow (req : request) (state : V1.State) (fs : disk V1.parsed) :
  method req = "POST" -> pathname req = "/allow" -> V1.isAuthorized req state = true ->
  V1.server req state fs = V1.op_allow (V1.body_deviceId req) state fs.
Proof. intros Hm Hp Ha. unfold V1.server. now rewrite Hm, Hp, Ha. Qed.

Lemma V1_server_block (req : request) (state : V1.State) (fs : disk V1.parsed) :
  method req = "POST" -> pathname req = "/block" -> V1.isAuthorized req state = true ->
  V1.server req state fs = V1.op_block (V1.body_deviceId req) state fs.
Proof. intros Hm Hp Ha. unfold V1.server. now rewrite Hm, Hp, Ha. Qed.

Lemma V2_server_check (env : option string) (req : request) (now : string)
    (fs : disk V2.parsed) :
  method req <> "OPTIONS" -> pathname req = "/check" ->
  V2.server env req now fs = V2.op_check env (V2.check_deviceId req) now fs.
Proof.
  intros Hm Hp. apply String.eqb_neq in Hm. unfold V2.server. now rewrite Hm, Hp.
Qed.

Lemma V2_server_allow (env : option string) (req : request) (now : string)
    (fs : disk V2.parsed) (d : string) :
  method req = "POST" -> pathname req = "/allow" -> payload req = JsonObject (Some d) ->
  fst (V2.authenticateRequest env req fs) = true ->
  V2.server env req now fs
  = V2.op_allow env d (snd (V2.authenticateRequest env req fs)).
Proof.
  intros Hm Hp Hb Ha. unfold V2.server. rewrite Hm, Hp, Hb. simpl.
  destruct (V2.authenticateRequest env req fs) as [ok fs1]. simpl in Ha. now subst ok.
Qed.

Lemma V2_server_clearPending (env : option string) (req : request) (now : string)
    (fs : disk V2.parsed) :
  method req = "DELETE" -> pathname req = "/pending" ->
  fst (V2.authenticateRequest env req fs) = true ->
  V2.server env req now fs
  = V2.op_clearPending env (snd (V2.authenticateRequest env req fs)).
Proof.
  intros Hm Hp Ha. unfold V2.server. rewrite Hm, Hp. simpl.
  destruct (V2.authenticateRequest env req fs) as [ok fs1]. simpl in Ha. now subst ok.
Qed.

(** When the file system refuses the write, [saveData] and [saveServerData]
    log and go on.  The first version keeps the change in its state; the
    second answers with the changed list and has nothing to keep it in, the
    next request loads the old store. *)
Lemma refused_write_first_version :
  let '(s0, fs0) := V1.loadData None Run.read_only in
  let '(r1, s1, fs1) := V1.server (Run.POST_allow "dev1") s0 fs0 in
  let '(r2, _, _) := V1.server Run.GET_list s1 fs1 in
  r1 = Allow_list ["dev1"] /\ r2 = Listing ["dev1"] [] None None.
Proof. vm_compute. split; reflexivity. Qed.

Lemma refused_write_second_version :
  let '(r1, fs1) := V2.server None (Run.POST_allow "dev1") Run.t1 Run.read_only in
  let '(r2, _) := V2.server None Run.GET_list Run.t2 fs1 in
  r1 = Allow_list ["dev1"] /\ r2 = Listing [] [] (Some []) (Some ∅).
Proof. vm_compute. split; reflexivity. Qed.

End routes.

(** ** The claims *)
Section claims.
Import JS Http.

(** C1.  Invariant I1 holds in every reachable store state: no device
    identifier is at once in the allow list and in the block list.  In the
    first version the store is the global [state], reached from [loadData] by
    any sequence of requests; in the second version it is the store that the
    next request loads from the file.  The file found at start is assumed to
    hold no identifier in both lists, as is the case when it is missing or
    corrupt and when the server itself wrote it. *)
Theorem C1_allow_block_disjoint (env : option string) :
  (forall (fs0 : disk V1.parsed) (state : V1.State) (fs : disk V1.parsed),
      I1 (V1.allow (fst (V1.loadData env fs0))) (V1.block (fst (V1.loadData env fs0))) ->
      V1.reachable env fs0 (state, fs) ->
      I1 (V1.allow state) (V1.block state))
  /\ (forall (fs0 fs : disk V2.parsed),
      I1 (V2.allow (V2.view env fs0)) (V2.block (V2.view env fs0)) ->
      V2.reachable env fs0 fs ->
      I1 (V2.allow (V2.view env fs)) (V2.block (V2.view env fs))).
Proof.
  split.
  - intros fs0 state fs H0 Hr. exact (V1_reachable_I1 env fs0 (state, fs) H0 Hr).
  - intros fs0 fs H0 Hr. exact (V2_reachable_I1 env fs0 fs H0 Hr).
Qed.

Lemma C1_allow_block_disjoint_witness :
  I1 ["dev1"] []
  /\ I1 (V2.allow (V2.view None (snd (V2.server None (Run.POST_block "dev1") Run.t1
                                                  Run.first_start))))
        (V2.block (V2.view None (snd (V2.server None (Run.POST_block "dev1") Run.t1
                                                  Run.first_start)))).
Proof.
  split.
  - apply (proj1 (C1_allow_block_disjoint None) Run.first_start
             (V1.MkState Run.token ["dev1"] [])
             (V1.saveData (V1.MkState Run.token ["dev1"] [])
                          (snd (V1.loadData None Run.first_start)))).
    + simpl. intros d [H _]. inversion H.
    + exact (V1.reach_request None Run.first_start (Run.POST_allow "dev1") _ _
               (V1.reach_start None Run.first_start)).
  - apply (proj2 (C1_allow_block_disjoint None) Run.first_start).
    + simpl. intros d [H _]. inversion H.
    + exact (V2.reach_request None Run.first_start (Run.POST_block "dev1") Run.t1 _
               (V2.reach_start None Run.first_start)).
Defined.

(** C2, as the code has it.  For every non-empty device identifier [d], the
    first version answers [check(d)] with allowed=false, forceExit=true,
    reason "blocked" when [d] is in the block list, with allowed=true,
    forceExit=false, reason "" when [d] is in the allow list and not in the
    block list, and with allowed=false, forceExit=true, reason "not allowed"
    when [d] is in neither.  The second version tests the allow list first
    and its reason for a blocked device is "device blocked".  The reason of
    every check result is one of "missing deviceId", "blocked", "not allowed"
    and "" in the first version, and one of "missing deviceId",
    "device blocked", "not allowed" and "" in the second. *)
Theorem C2_check_decision (env : option string) (d : string) :
  (d <> "" ->
   (forall state : V1.State,
       (d ∈ V1.block state ->
        V1.op_check d state = Decision 200 false true 30 "blocked")
       /\ (d ∉ V1.block state -> d ∈ V1.allow state ->
           V1.op_check d state = Decision 200 true false 30 "")
       /\ (d ∉ V1.block state -> d ∉ V1.allow state ->
           V1.op_check d state = Decision 200 false true 30 "not allowed"))
   /\ (forall (now : string) (fs : disk V2.parsed),
       (d ∈ V2.allow (V2.view env fs) ->
        fst (V2.op_check env d now fs) = Decision 200 true false 30 "")
       /\ (d ∉ V2.allow (V2.view env fs) -> d ∈ V2.block (V2.view env fs) ->
           fst (V2.op_check env d now fs) = Decision 200 false true 30 "device blocked")
       /\ (d ∉ V2.allow (V2.view env fs) -> d ∉ V2.block (V2.view env fs) ->
           fst (V2.op_check env d now fs) = Decision 200 false true 30 "not allowed")))
  /\ (forall state : V1.State,
       exists reason, reason_of (V1.op_check d state) = Some reason
         /\ reason ∈ ["missing deviceId"; "blocked"; "not allowed"; ""])
  /\ (forall (now : string) (fs : disk V2.parsed),
       exists reason, reason_of (fst (V2.op_check env d now fs)) = Some reason
         /\ reason ∈ ["missing deviceId"; "device blocked"; "not allowed"; ""]).
Proof.
  split; [intros Hd; apply truthy_true in Hd; split|split].
  - intros state. unfold V1.op_check. rewrite Hd. simpl.
    repeat split.
    + intros Hb. apply includes_true in Hb. now rewrite Hb.
    + intros Hb Ha. apply includes_false in Hb. apply includes_true in Ha.
      now rewrite Hb, Ha.
    + intros Hb Ha. apply includes_false in Hb, Ha. now rewrite Hb, Ha.
  - intros now fs. rewrite op_check_answer by exact Hd.
    unfold V2.check_update. simpl. repeat split.
    + intros Ha. apply includes_true in Ha. now rewrite Ha.
    + intros Ha Hb. apply includes_false in Ha. apply includes_true in Hb.
      now rewrite Ha, Hb.
    + intros Ha Hb. apply includes_false in Ha, Hb. now rewrite Ha, Hb.
  - intros state. unfold V1.op_check.
    destruct (negb (truthy d)); [|destruct (includes d (V1.block state));
                                  [|destruct (includes d (V1.allow state))]];
      simpl; eexists; (split; [reflexivity|]); apply includes_true; reflexivity.
  - intros now fs. destruct (truthy d) eqn:Hd.
    + rewrite op_check_answer by exact Hd. unfold V2.check_update. simpl.
      destruct (includes d (V2.allow (V2.view env fs)));
        [|destruct (includes d (V2.block (V2.view env fs)))];
        simpl; eexists; (split; [reflexivity|]); apply includes_true; reflexivity.
    + unfold V2.op_check. rewrite Hd. simpl.
      eexists; (split; [reflexivity|]); apply includes_true; reflexivity.
Qed.

Lemma C2_check_decision_witness :
  V1.op_check "dev1" (V1.MkState Run.token [] ["dev1"])
  = Decision 200 false true 30 "blocked"
  /\ fst (V2.op_check None "dev1" Run.t1
            (snd (V2.op_block None "dev1" Run.first_start)))
     = Decision 200 false true 30 "device blocked".
Proof.
  assert ("dev1" <> "") as Hd by discriminate.
  split.
  - apply (proj1 (proj1 (proj1 (C2_check_decision None "dev1") Hd)
                    (V1.MkState Run.token [] ["dev1"]))).
    apply includes_true. reflexivity.
  - apply (proj1 (proj2 (proj2 (proj1 (C2_check_decision None "dev1") Hd)
                           Run.t1 (snd (V2.op_block None "dev1" Run.first_start))))).
    + apply includes_false. vm_compute. reflexivity.
    + apply includes_true. vm_compute. reflexivity.
Defined.

(** C2 as stated fails in the second version: after [block("dev1")] the
    device is in the block list, and [check("dev1")] gives the reason
    "device blocked", not "blocked". *)
Lemma C2_blocked_reason_counterexample :
  "dev1" ∈ V2.block (V2.view None (snd (V2.op_block None "dev1" Run.first_start)))
  /\ fst (V2.op_check None "dev1" Run.t1 (snd (V2.op_block None "dev1" Run.first_start)))
     = Decision 200 false true 30 "device blocked"
  /\ reason_of (fst (V2.op_check None "dev1" Run.t1
                       (snd (V2.op_block None "dev1" Run.first_start))))
     <> Some "blocked".
Proof.
  split; [|split].
  - apply includes_true. vm_compute. reflexivity.
  - vm_compute. reflexivity.
  - vm_compute. discriminate.
Qed.

(** C3.  For every non-empty device identifier [d], after [allow(d)] has
    succeeded [d] is in the allow list, not in the block list and not in the
    pending list, and a second [allow(d)] leaves the store as it is; the same
    holds of [block(d)] with the two lists exchanged.  The first version has
    no pending list.  In the second version the store is the file: the
    durable write has to be accepted and the file has to be one that can be
    read (a file whose read throws gives the seed to every request). *)
Theorem C3_allow_block_postcondition (env : option string) (d : string) :
  d <> "" ->
  (forall (state : V1.State) (fs : disk V1.parsed),
      let s1 := snd (fst (V1.op_allow d state fs)) in
      let fs1 := snd (V1.op_allow d state fs) in
      fst (fst (V1.op_allow d state fs)) = Allow_list (V1.allow s1)
      /\ d ∈ V1.allow s1 /\ (d ∉ V1.block s1)
      /\ snd (fst (V1.op_allow d s1 fs1)) = s1)
  /\ (forall (state : V1.State) (fs : disk V1.parsed),
      let s1 := snd (fst (V1.op_block d state fs)) in
      let fs1 := snd (V1.op_block d state fs) in
      fst (fst (V1.op_block d state fs)) = Block_list (V1.block s1)
      /\ d ∈ V1.block s1 /\ (d ∉ V1.allow s1)
      /\ snd (fst (V1.op_block d s1 fs1)) = s1)
  /\ (forall fs : disk V2.parsed,
      writable fs = true -> content fs <> Unreadable ->
      let fs1 := snd (V2.op_allow env d fs) in
      let fs2 := snd (V2.op_allow env d fs1) in
      fst (V2.op_allow env d fs) = Allow_list (V2.allow (V2.view env fs1))
      /\ d ∈ V2.allow (V2.view env fs1)
      /\ (d ∉ V2.block (V2.view env fs1))
      /\ (d ∉ V2.pending (V2.view env fs1))
      /\ V2.view env fs2 = V2.view env fs1)
  /\ (forall fs : disk V2.parsed,
      writable fs = true -> content fs <> Unreadable ->
      let fs1 := snd (V2.op_block env d fs) in
      let fs2 := snd (V2.op_block env d fs1) in
      fst (V2.op_block env d fs) = Block_list (V2.block (V2.view env fs1))
      /\ d ∈ V2.block (V2.view env fs1)
      /\ (d ∉ V2.allow (V2.view env fs1))
      /\ (d ∉ V2.pending (V2.view env fs1))
      /\ V2.view env fs2 = V2.view env fs1).
Proof.
  intros Hd. apply truthy_true in Hd. split; [|split; [|split]].
  - intros state fs. repeat split.
    + unfold V1.op_allow. now rewrite Hd.
    + unfold V1.op_allow. rewrite Hd. simpl.
      destruct (includes d (V1.allow state)) eqn:E; simpl.
      * now apply includes_true.
      * apply elem_of_push. now right.
    + unfold V1.op_allow. rewrite Hd. simpl. apply not_elem_of_filter_ne.
    + unfold V1.op_allow. rewrite Hd. simpl. rewrite filter_ne_idem.
      destruct (includes d (V1.allow state)) eqn:E; simpl.
      * now rewrite E.
      * assert (includes d (push d (V1.allow state)) = true) as ->; [|reflexivity].
        apply includes_true, elem_of_push. now right.
  - intros state fs. repeat split.
    + unfold V1.op_block. now rewrite Hd.
    + unfold V1.op_block. rewrite Hd. simpl.
      destruct (includes d (V1.block state)) eqn:E; simpl.
      * now apply includes_true.
      * apply elem_of_push. now right.
    + unfold V1.op_block. rewrite Hd. simpl. apply not_elem_of_filter_ne.
    + unfold V1.op_block. rewrite Hd. simpl. rewrite filter_ne_idem.
      destruct (includes d (V1.block state)) eqn:E; simpl.
      * now rewrite E.
      * assert (includes d (push d (V1.block state)) = true) as ->; [|reflexivity].
        apply includes_true, elem_of_push. now right.
  - intros fs W C.
    assert (retains fs = true) as R by (apply retains_true; now split).
    repeat split.
    + rewrite op_allow_view, R by exact Hd.
      unfold V2.op_allow. rewrite Hd, (load_pair env fs). reflexivity.
    + rewrite op_allow_view, R by exact Hd. apply allow_update_allow. now right.
    + rewrite op_allow_view, R by exact Hd. rewrite allow_update_block.
      apply not_elem_of_filter_ne.
    + rewrite op_allow_view, R by exact Hd. rewrite allow_update_pending.
      apply not_elem_of_filter_ne.
    + rewrite (op_allow_view env d (snd (V2.op_allow env d fs))) by exact Hd.
      rewrite op_allow_view, R by exact Hd.
      rewrite allow_update_idem.
      now destruct (retains (snd (V2.op_allow env d fs))).
  - intros fs W C.
    assert (retains fs = true) as R by (apply retains_true; now split).
    repeat split.
    + rewrite op_block_view, R by exact Hd.
      unfold V2.op_block. rewrite Hd, (load_pair env fs). reflexivity.
    + rewrite op_block_view, R by exact Hd. apply block_update_block. now right.
    + rewrite op_block_view, R by exact Hd. rewrite block_update_allow.
      apply not_elem_of_filter_ne.
    + rewrite op_block_view, R by exact Hd. rewrite block_update_pending.
      apply not_elem_of_filter_ne.
    + rewrite (op_block_view env d (snd (V2.op_block env d fs))) by exact Hd.
      rewrite op_block_view, R by exact Hd.
      rewrite block_update_idem.
      now destruct (retains (snd (V2.op_block env d fs))).
Qed.

Lemma C3_allow_block_postcondition_witness :
  ("dev1" ∈ V1.allow (snd (fst (V1.op_allow "dev1" (V1.seed None) Run.first_start)))
   /\ ("dev1" ∉ V1.block (snd (fst (V1.op_allow "dev1" (V1.seed None) Run.first_start)))))
  /\ ("dev1" ∈ V2.block (V2.view None (snd (V2.op_block None "dev1" Run.first_start)))
      /\ ("dev1" ∉ V2.allow (V2.view None (snd (V2.op_block None "dev1" Run.first_start))))
      /\ ("dev1" ∉ V2.pending (V2.view None (snd (V2.op_block None "dev1" Run.first_start))))).
Proof.
  assert ("dev1" <> "") as Hd by discriminate.
  pose proof (C3_allow_block_postcondition None "dev1" Hd) as (H1 & _ & _ & H4).
  split.
  - destruct (H1 (V1.seed None) Run.first_start) as (_ & Ha & Hb & _).
    exact (conj Ha Hb).
  - assert (content (Run.first_start : disk V2.parsed) <> Unreadable) as Hc
        by discriminate.
    destruct (H4 Run.first_start eq_refl Hc) as (_ & Hb & Ha & Hp & _).
    exact (conj Hb (conj Ha Hp)).
Defined.

(** The third branch of [/check]: a device seen for the first time is
    pushed on the pending list, a device already pending is not. *)
Lemma check_update_new (d now : string) (sd : V2.ServerData) :
  d ∉ V2.allow sd -> d ∉ V2.block sd -> d ∉ V2.pending sd ->
  V2.check_update d now sd
  = (Decision 200 false true 30 "not allowed",
     V2.MkData (V2.adminToken sd) (V2.allow sd) (V2.block sd)
               (V2.pending sd ++ [d]) (assign (V2.lastSeen sd) d now)).
Proof.
  intros Ha Hb Hp. apply includes_false in Ha, Hb, Hp.
  unfold V2.check_update. simpl. now rewrite Ha, Hb, Hp.
Qed.

Lemma check_update_again (d now : string) (sd : V2.ServerData) :
  d ∉ V2.allow sd -> d ∉ V2.block sd -> d ∈ V2.pending sd ->
  V2.check_update d now sd
  = (Decision 200 false true 30 "not allowed",
     V2.set_lastSeen (assign (V2.lastSeen sd) d now) sd).
Proof.
  intros Ha Hb Hp. apply includes_false in Ha, Hb. apply includes_true in Hp.
  unfold V2.check_update. simpl. now rewrite Ha, Hb, Hp.
Qed.

(** C4, as the code has it.  In the second version, for every non-empty
    device identifier [d] that is in none of the three lists (as on a fresh
    store), a first [check(d)] appends [d] to the pending list, a second one
    leaves the pending list as it is, and both answer "not allowed"; the
    durable write has to be accepted and the file has to be one that can be
    read.  In both versions a check never changes
    the allow list or the block list; in the first version, which has no
    pending list, it changes nothing at all. *)
Theorem C4_check_idempotent (env : option string) (d : string) :
  d <> "" ->
  (forall (now1 now2 : string) (fs : disk V2.parsed),
      writable fs = true -> content fs <> Unreadable ->
      d ∉ V2.allow (V2.view env fs) ->
      d ∉ V2.block (V2.view env fs) ->
      d ∉ V2.pending (V2.view env fs) ->
      let fs1 := snd (V2.op_check env d now1 fs) in
      let fs2 := snd (V2.op_check env d now2 fs1) in
      V2.pending (V2.view env fs1) = (V2.pending (V2.view env fs) ++ [d])%list
      /\ V2.pending (V2.view env fs2) = V2.pending (V2.view env fs1)
      /\ fst (V2.op_check env d now1 fs) = Decision 200 false true 30 "not allowed"
      /\ fst (V2.op_check env d now2 fs1) = Decision 200 false true 30 "not allowed")
  /\ (forall (now : string) (fs : disk V2.parsed),
      V2.allow (V2.view env (snd (V2.op_check env d now fs))) = V2.allow (V2.view env fs)
      /\ V2.block (V2.view env (snd (V2.op_check env d now fs))) = V2.block (V2.view env fs))
  /\ (forall (req : request) (state : V1.State) (fs : disk V1.parsed),
      method req = "GET" -> pathname req = "/check" -> V1.query_deviceId req = d ->
      V1.server req state fs = (V1.op_check d state, state, fs)).
Proof.
  intros Hd. apply truthy_true in Hd. split; [|split].
  - intros now1 now2 fs W C Ha Hb Hp fs1 fs2.
    assert (retains fs = true) as R by (apply retains_true; now split).
    assert (V2.view env fs1
            = V2.MkData (V2.adminToken (V2.view env fs)) (V2.allow (V2.view env fs))
                (V2.block (V2.view env fs)) (V2.pending (V2.view env fs) ++ [d])
                (assign (V2.lastSeen (V2.view env fs)) d now1)) as E1.
    { unfold fs1. rewrite op_check_view, R by exact Hd.
      now rewrite check_update_new. }
    assert (d ∈ V2.pending (V2.view env fs1)) as Hp1.
    { rewrite E1. simpl. apply elem_of_app. right. now apply list_elem_of_singleton. }
    assert (d ∉ V2.allow (V2.view env fs1)) as Ha1 by now rewrite E1.
    assert (d ∉ V2.block (V2.view env fs1)) as Hb1 by now rewrite E1.
    repeat split.
    + now rewrite E1.
    + unfold fs2. rewrite op_check_view by exact Hd.
      destruct (retains fs1); [|reflexivity].
      now rewrite check_update_again.
    + rewrite op_check_answer by exact Hd. now rewrite check_update_new.
    + rewrite op_check_answer by exact Hd. now rewrite check_update_again.
  - intros now fs. rewrite op_check_view by exact Hd.
    destruct (retains fs); [|now split].
    apply check_update_lists.
  - intros req state fs Hm Hp Hq. unfold V1.server. rewrite Hm, Hp, Hq. reflexivity.
Qed.

Lemma C4_check_idempotent_witness :
  V2.pending (V2.view None (snd (V2.op_check None "dev1" Run.t1 Run.first_start)))
  = ["dev1"]
  /\ V2.pending (V2.view None
       (snd (V2.op_check None "dev1" Run.t2
          (snd (V2.op_check None "dev1" Run.t1 Run.first_start)))))
     = V2.pending (V2.view None (snd (V2.op_check None "dev1" Run.t1 Run.first_start))).
Proof.
  assert ("dev1" <> "") as Hd by discriminate.
  assert ("dev1" ∉ @nil string) as Hn by (intros H; inversion H).
  assert (content (Run.first_start : disk V2.parsed) <> Unreadable) as Hc
      by discriminate.
  destruct (proj1 (C4_check_idempotent None "dev1" Hd) Run.t1 Run.t2 Run.first_start
              eq_refl Hc Hn Hn Hn) as (H1 & H2 & _).
  exact (conj H1 H2).
Defined.

(** C4 as stated fails in the first version, which has no pending list: on a
    fresh store two checks of "dev1" answer "not allowed", and the listing
    that follows shows no pending list and no "dev1". *)
Lemma C4_first_version_counterexample :
  let '(s0, fs0) := V1.loadData None Run.first_start in
  let '(r1, s1, fs1) := V1.server (Run.GET_check "dev1") s0 fs0 in
  let '(r2, s2, fs2) := V1.server (Run.GET_check "dev1") s1 fs1 in
  let '(r3, _, _) := V1.server Run.GET_list s2 fs2 in
  r1 = Decision 200 false true 30 "not allowed"
  /\ r2 = Decision 200 false true 30 "not allowed"
  /\ r3 = Listing [] [] None None
  /\ "dev1" ∉ pending_of r3.
Proof.
  vm_compute. repeat split; try reflexivity. intros H. inversion H.
Qed.

Lemma check_update_lastSeen (d now : string) (sd : V2.ServerData) :
  V2.lastSeen (snd (V2.check_update d now sd)) = assign (V2.lastSeen sd) d now.
Proof.
  unfold V2.check_update. simpl.
  destruct (includes d (V2.allow sd)); [reflexivity|].
  destruct (includes d (V2.block sd)); [reflexivity|].
  now destruct (includes d (V2.pending sd)).
Qed.

(** C5, as the code has it.  In the second version, for every non-empty
    device identifier [d] other than "__proto__" and every timestamp [now],
    [check(d)] at [now] sets [lastSeen[d] = now] whatever the classification
    of [d] is, and the listing that follows shows it; the durable write has to
    be accepted and the file has to be one that can be read.  The first
    version keeps no [lastSeen]. *)
Theorem C5_check_records_lastSeen (env : option string) (d now : string)
    (fs : disk V2.parsed) :
  d <> "" -> d <> "__proto__" -> writable fs = true -> content fs <> Unreadable ->
  V2.lastSeen (V2.view env (snd (V2.op_check env d now fs)))
  = <[d := now]> (V2.lastSeen (V2.view env fs))
  /\ V2.lastSeen (V2.view env (snd (V2.op_check env d now fs))) !! d = Some now
  /\ lastSeen_of (fst (V2.op_list env (snd (V2.op_check env d now fs)))) !! d = Some now.
Proof.
  intros Hd Hp W C. apply truthy_true in Hd.
  assert (retains fs = true) as R by (apply retains_true; now split).
  assert (V2.lastSeen (V2.view env (snd (V2.op_check env d now fs)))
          = <[d := now]> (V2.lastSeen (V2.view env fs))) as E.
  { rewrite op_check_view, R by exact Hd. rewrite check_update_lastSeen.
    unfold assign. apply String.eqb_neq in Hp. now rewrite Hp. }
  split; [exact E|]. split.
  - rewrite E. apply lookup_insert_eq.
  - rewrite op_list_answer. simpl. rewrite E. apply lookup_insert_eq.
Qed.

Lemma C5_check_records_lastSeen_witness :
  lastSeen_of (fst (V2.op_list None
     (snd (V2.op_check None "dev1" Run.t2
        (snd (V2.op_allow None "dev1" Run.first_start)))))) !! "dev1"
  = Some Run.t2.
Proof.
  refine (proj2 (proj2 (C5_check_records_lastSeen None "dev1" Run.t2
                          (snd (V2.op_allow None "dev1" Run.first_start)) _ _ _ _)));
    [discriminate | discriminate | reflexivity | discriminate].
Defined.

(** C5 as stated fails in the first version, which keeps no [lastSeen]: after
    a check of "dev1" the listing has no [lastSeen] member at all. *)
Lemma C5_first_version_counterexample :
  let '(s0, fs0) := V1.loadData None Run.first_start in
  let '(_, s1, fs1) := V1.server (Run.GET_check "dev1") s0 fs0 in
  let '(r2, _, _) := V1.server Run.GET_list s1 fs1 in
  r2 = Listing [] [] None None /\ lastSeen_of r2 !! "dev1" = None.
Proof. vm_compute. split; reflexivity. Qed.

(** The identifier left out of C5: [lastSeen["__proto__"] = now] reaches the
    setter inherited from [Object.prototype] and records nothing, while the
    same check pushes the identifier on the pending list. *)
Lemma check_proto_not_recorded :
  let fs1 := snd (V2.server None (Run.GET_check "__proto__") Run.t1 Run.first_start) in
  fst (V2.server None Run.GET_list Run.t2 fs1) = Listing [] [] (Some ["__proto__"]) (Some ∅)
  /\ lastSeen_of (fst (V2.server None Run.GET_list Run.t2 fs1)) !! "__proto__" = None.
Proof. vm_compute. split; reflexivity. Qed.

(** C6.  For every device identifier that is empty after trimming (empty,
    only white space, or not sent at all), the check answers allowed=false,
    forceExit=true, reason "missing deviceId" and leaves the whole store as it
    is: the state and the file of the first version, the file of the second,
    so neither the pending list nor [lastSeen] changes. *)
Theorem C6_check_missing_deviceId (env : option string) (req : request) :
  pathname req = "/check" ->
  trim (or_empty (get "deviceId" (searchParams req))) = "" ->
  (forall (state : V1.State) (fs : disk V1.parsed),
      method req = "GET" ->
      V1.server req state fs
      = (Decision 200 false true 30 "missing deviceId", state, fs))
  /\ (forall (now : string) (fs : disk V2.parsed),
      method req <> "OPTIONS" ->
      V2.server env req now fs
      = (Decision 400 false true 30 "missing deviceId", fs)).
Proof.
  intros Hp Hq. split.
  - intros state fs Hm. unfold V1.server, V1.query_deviceId.
    rewrite Hm, Hp, Hq. reflexivity.
  - intros now fs Hm. unfold V2.server, V2.check_deviceId.
    apply String.eqb_neq in Hm. rewrite Hm, Hp, Hq. reflexivity.
Qed.

Lemma C6_check_missing_deviceId_witness :
  V1.server (Run.GET_check "   ") (V1.seed None) Run.first_start
  = (Decision 200 false true 30 "missing deviceId", V1.seed None, Run.first_start)
  /\ V2.server None (Run.GET_check "   ") Run.t1 Run.first_start
     = (Decision 400 false true 30 "missing deviceId", Run.first_start).
Proof.
  pose proof (C6_check_missing_deviceId None (Run.GET_check "   ") eq_refl eq_refl)
    as [H1 H2].
  split.
  - apply H1. reflexivity.
  - apply H2. discriminate.
Defined.

(** C8.  Loading never fails on bad persisted state: when [server.json] is
    missing, cannot be read or does not hold valid JSON, [loadData] and
    [loadServerData] return the fresh seed, with the default admin token (the
    one of the environment when it is set and not empty) and empty lists,
    and in the second version an empty [lastSeen].  Every exception of the
    file system and of [JSON.parse] is caught: the two functions always
    return a store. *)
Theorem C8_load_seeds_on_bad_file (env : option string) :
  (forall fs : disk V1.parsed,
      corrupt (content fs) = true ->
      fst (V1.loadData env fs) = V1.MkState (V1.DEFAULT_ADMIN_TOKEN env) [] [])
  /\ (forall fs : disk V2.parsed,
      corrupt (content fs) = true ->
      fst (V2.loadServerData env fs)
      = V2.MkData (V2.DEFAULT_ADMIN_TOKEN env) [] [] [] ∅)
  /\ (forall t : string, env = Some t -> t <> "" ->
      V1.DEFAULT_ADMIN_TOKEN env = t /\ V2.DEFAULT_ADMIN_TOKEN env = t)
  /\ (env = None ->
      V1.DEFAULT_ADMIN_TOKEN env = "admin_7f9e2a1b_8c4d_9e5f_0a1b_2c3d4e5f6a7b"
      /\ V2.DEFAULT_ADMIN_TOKEN env = "admin_7f9e2a1b_8c4d_9e5f_0a1b_2c3d4e5f6a7b").
Proof.
  repeat split.
  - intros fs H. unfold V1.loadData, existsSync, readFileSync.
    destruct (content fs) as [| |[| |v]]; try discriminate H; reflexivity.
  - intros fs H. unfold V2.loadServerData, V2.read_stored, existsSync, readFileSync.
    destruct (content fs) as [| |[| |v]]; try discriminate H; reflexivity.
  - subst env. unfold V1.DEFAULT_ADMIN_TOKEN. apply or_string_id.
    now apply truthy_true.
  - subst env. unfold V2.DEFAULT_ADMIN_TOKEN. apply or_string_id.
    now apply truthy_true.
  - now subst env.
  - now subst env.
Qed.

Lemma C8_load_seeds_on_bad_file_witness :
  fst (V1.loadData (Some "s3cret") (Disk (Readable Blank) false))
  = V1.MkState "s3cret" [] []
  /\ fst (V2.loadServerData None (Disk Unreadable true))
     = V2.MkData Run.token [] [] [] ∅.
Proof.
  split.
  - exact (proj1 (C8_load_seeds_on_bad_file (Some "s3cret"))
                 (Disk (Readable Blank) false) eq_refl).
  - exact (proj1 (proj2 (C8_load_seeds_on_bad_file None)) (Disk Unreadable true) eq_refl).
Defined.

(** C9.  For every store, [clearPending()] empties the pending list and
    leaves the allow list, the block list and [lastSeen] exactly as they
    were.  The operation exists in the second version only, where the store
    is the file: the pending list of the store is empty afterwards when the
    durable write is accepted; the three other members are the same in any
    case. *)
Theorem C9_clearPending_frame (env : option string) (fs : disk V2.parsed) :
  fst (V2.op_clearPending env fs) = Pending_list []
  /\ V2.allow (V2.view env (snd (V2.op_clearPending env fs))) = V2.allow (V2.view env fs)
  /\ V2.block (V2.view env (snd (V2.op_clearPending env fs))) = V2.block (V2.view env fs)
  /\ V2.lastSeen (V2.view env (snd (V2.op_clearPending env fs)))
     = V2.lastSeen (V2.view env fs)
  /\ (writable fs = true ->
      V2.pending (V2.view env (snd (V2.op_clearPending env fs))) = []).
Proof.
  rewrite op_clearPending_view. split.
  { unfold V2.op_clearPending. now rewrite (load_pair env fs). }
  destruct (retains fs) eqn:R; repeat split.
  intros W. now rewrite (view_write_only env fs W R).
Qed.

Lemma C9_clearPending_frame_witness :
  V2.pending (V2.view None (snd (V2.op_check None "dev1" Run.t1 Run.first_start)))
  = ["dev1"]
  /\ V2.pending (V2.view None (snd (V2.op_clearPending None
                    (snd (V2.op_check None "dev1" Run.t1 Run.first_start))))) = [].
Proof.
  split; [reflexivity|].
  destruct (C9_clearPending_frame None
              (snd (V2.op_check None "dev1" Run.t1 Run.first_start)))
    as (_ & _ & _ & _ & H).
  exact (H eq_refl).
Defined.

(** A string that [trim] changes is never the result of [trim]. *)
Lemma trim_never_untrimmed (d : string) : trim d <> d -> forall raw, trim raw <> d.
Proof. intros H raw E. apply H. rewrite <- E. apply trim_idem. Qed.

(** C10.  In the second version [allow] stores the identifier as it was sent
    while [check] trims its input.  For the identifier " dev1 ": the [allow]
    succeeds and the allow list holds " dev1 " verbatim; the check of the same
    string answers "not allowed"; no check input resolves to the stored
    entry, and no check at all is answered allowed on that store. *)
Theorem C10_untrimmed_allow_unreachable :
  exists d : string,
    d <> "" /\ trim d <> d
    /\ fst (V2.server None (Run.POST_allow d) Run.t1 Run.first_start) = Allow_list [d]
    /\ V2.allow (V2.view None (snd (V2.server None (Run.POST_allow d) Run.t1
                                              Run.first_start))) = [d]
    /\ fst (V2.server None (Run.GET_check d) Run.t2
              (snd (V2.server None (Run.POST_allow d) Run.t1 Run.first_start)))
       = Decision 200 false true 30 "not allowed"
    /\ (forall req : request, V2.check_deviceId req <> d)
    /\ (forall (m : string) (q : list (string * string)) (auth : option string)
               (b : body) (now : string),
           allows (fst (V2.server None (Request m "/check" q auth b) now
                          (snd (V2.server None (Run.POST_allow d) Run.t1
                                          Run.first_start)))) = false).
Proof.
  exists " dev1 ".
  assert (trim " dev1 " <> " dev1 ") as Ht by (vm_compute; discriminate).
  split; [discriminate|]. split; [exact Ht|].
  split; [vm_compute; reflexivity|]. split; [vm_compute; reflexivity|].
  split; [vm_compute; reflexivity|]. split.
  - intros req. apply trim_never_untrimmed, Ht.
  - intros m q auth b now.
    set (fs1 := snd (V2.server None (Run.POST_allow " dev1 ") Run.t1 Run.first_start)).
    set (req := Request m "/check" q auth b).
    assert (V2.view None fs1 = V2.MkData Run.token [" dev1 "] [] [] ∅) as Ev
        by (vm_compute; reflexivity).
    unfold V2.server. change (pathname req) with "/check".
    change (String.eqb "/check" "/health") with false.
    change (String.eqb "/check" "/check") with true. cbv iota.
    destruct (String.eqb (method req) "OPTIONS"); [reflexivity|].
    destruct (truthy (V2.check_deviceId req)) eqn:T.
    + rewrite op_check_answer by exact T. rewrite Ev.
      unfold V2.check_update. simpl.
      destruct (String.eqb_spec (V2.check_deviceId req) " dev1 ") as [E|_].
      * exfalso. revert E. apply trim_never_untrimmed, Ht.
      * reflexivity.
    + unfold V2.op_check. now rewrite T.
Qed.

(** The first version trims in [allow] as well: the same request stores
    "dev1" and the check of " dev1 " is answered allowed. *)
Lemma allow_trims_in_first_version :
  let '(s0, fs0) := V1.loadData None Run.first_start in
  let '(r1, s1, fs1) := V1.server (Run.POST_allow " dev1 ") s0 fs0 in
  let '(r2, _, _) := V1.server (Run.GET_check " dev1 ") s1 fs1 in
  r1 = Allow_list ["dev1"] /\ r2 = Decision 200 true false 30 "".
Proof. vm_compute. split; reflexivity. Qed.

(** Requests are handled one after the other.  Whichever of [allow(d)] and
    [block(d)] is handled last decides: [d] ends in exactly one of the two
    lists, in either order and in both versions. *)
Lemma last_writer_wins_first_version (d : string) (state : V1.State)
    (fs : disk V1.parsed) :
  d <> "" ->
  let ab := V1.op_block d (snd (fst (V1.op_allow d state fs)))
                        (snd (V1.op_allow d state fs)) in
  let ba := V1.op_allow d (snd (fst (V1.op_block d state fs)))
                        (snd (V1.op_block d state fs)) in
  (d ∈ V1.block (snd (fst ab)) /\ (d ∉ V1.allow (snd (fst ab))))
  /\ (d ∈ V1.allow (snd (fst ba)) /\ (d ∉ V1.block (snd (fst ba)))).
Proof.
  intros Hd. apply truthy_true in Hd.
  assert (forall l, includes d (filter_ne d l) = false) as Hf.
  { intros l. apply includes_false, not_elem_of_filter_ne. }
  unfold V1.op_allow, V1.op_block. rewrite Hd. simpl. rewrite !Hf. simpl.
  repeat split.
  - apply elem_of_push. now right.
  - apply not_elem_of_filter_ne.
  - apply elem_of_push. now right.
  - apply not_elem_of_filter_ne.
Qed.

(** The same in the second version, the writes being accepted by a file
    that can be read: after [allow(d)] then [block(d)] the store has [d]
    blocked and not allowed, after [block(d)] then [allow(d)] it has [d]
    allowed and not blocked. *)
Lemma last_writer_wins_second_version (env : option string) (d : string)
    (fs : disk V2.parsed) :
  d <> "" -> writable fs = true -> content fs <> Unreadable ->
  let ab := V2.view env (snd (V2.op_block env d (snd (V2.op_allow env d fs)))) in
  let ba := V2.view env (snd (V2.op_allow env d (snd (V2.op_block env d fs)))) in
  (d ∈ V2.block ab /\ (d ∉ V2.allow ab)) /\ (d ∈ V2.allow ba /\ (d ∉ V2.block ba)).
Proof.
  intros Hd W C. apply truthy_true in Hd.
  assert (retains fs = true) as R by (apply retains_true; now split).
  assert (retains (snd (V2.op_allow env d fs)) = true) as Ra.
  { unfold V2.op_allow. rewrite Hd, (load_pair env fs). simpl.
    now rewrite retains_save, retains_load. }
  assert (retains (snd (V2.op_block env d fs)) = true) as Rb.
  { unfold V2.op_block. rewrite Hd, (load_pair env fs). simpl.
    now rewrite retains_save, retains_load. }
  simpl.
  rewrite (op_block_view env d (snd (V2.op_allow env d fs))), Ra by exact Hd.
  rewrite (op_allow_view env d (snd (V2.op_block env d fs))), Rb by exact Hd.
  repeat split.
  - apply block_update_block. now right.
  - rewrite block_update_allow. apply not_elem_of_filter_ne.
  - apply allow_update_allow. now right.
  - rewrite allow_update_block. apply not_elem_of_filter_ne.
Qed.

End claims.

(** ** Credentials *)
Section credentials.
Import JS Http.

Lemma prefix_inv (p h : string) :
  String.prefix p h = true -> exists t, h = (p ++ t)%string.
Proof.
  revert h. induction p as [|c p IH]; intros h H.
  - now exists h.
  - destruct h as [|c' h]; [discriminate H|]. simpl in H.
    destruct (ascii_dec c c') as [->|_]; [|discriminate H].
    destruct (IH h H) as [t ->]. now exists t.
Qed.

Lemma prefix_app (p t : string) : String.prefix p (p ++ t) = true.
Proof.
  induction p as [|c p IH]; [now destruct t|].
  simpl. destruct (ascii_dec c c) as [_|N]; [exact IH | now destruct N].
Qed.

Lemma substring_all (t : string) : String.substring 0 (String.length t) t = t.
Proof. induction t as [|c t IH]; [reflexivity|]. simpl. now rewrite IH. Qed.

Lemma slice_app (p t : string) : slice (String.length p) (p ++ t) = t.
Proof.
  unfold slice. induction p as [|c p IH].
  - simpl. rewrite Nat.sub_0_r. apply substring_all.
  - simpl. exact IH.
Qed.

Lemma bearer_header (h : string) :
  startsWith "Bearer " h = true ->
  h = ("Bearer " ++ slice 7 h)%string.
Proof.
  intros H. destruct (prefix_inv _ _ H) as [t ->].
  f_equal. symmetry. exact (slice_app "Bearer " t).
Qed.

(** [isAuthorized] of the first version accepts exactly the header
    [Bearer <adminToken>], and nothing when the token of the state is
    empty. *)
Theorem isAuthorized_exact (req : request) (state : V1.State) :
  V1.isAuthorized req state = true
  <-> authorization req = Some ("Bearer " ++ V1.adminToken state)%string
      /\ V1.adminToken state <> "".
Proof.
  unfold V1.isAuthorized. split.
  - intros H. apply andb_true_iff in H as [Ht He].
    destruct (startsWith "Bearer " (or_empty (authorization req))) eqn:P;
      [|discriminate Ht].
    apply String.eqb_eq in He. apply truthy_true in Ht. rewrite He in Ht.
    split; [|exact Ht].
    apply bearer_header in P. rewrite He in P.
    destruct (authorization req) as [h|]; simpl in P; [now subst h | discriminate P].
  - intros [H Ht]. rewrite H. simpl or_empty.
    rewrite (prefix_app "Bearer " (V1.adminToken state)
             : startsWith "Bearer " ("Bearer " ++ V1.adminToken state) = true).
    rewrite (slice_app "Bearer " (V1.adminToken state)
             : slice 7 ("Bearer " ++ V1.adminToken state) = V1.adminToken state).
    apply andb_true_iff. split; [now apply truthy_true | apply String.eqb_refl].
Qed.

(** [authenticateRequest] of the second version accepts exactly the header
    [Bearer <adminToken>] for the token of the store it loads, and it leaves
    that store as it is. *)
Theorem authenticateRequest_exact (env : option string) (req : request)
    (fs : disk V2.parsed) :
  (fst (V2.authenticateRequest env req fs) = true
   <-> authorization req = Some ("Bearer " ++ V2.adminToken (V2.view env fs))%string)
  /\ V2.view env (snd (V2.authenticateRequest env req fs)) = V2.view env fs.
Proof.
  split; [|apply authenticateRequest_view].
  unfold V2.authenticateRequest. destruct (authorization req) as [h|].
  - destruct (truthy h) eqn:T; simpl.
    + destruct (startsWith "Bearer " h) eqn:P; simpl.
      * rewrite (load_pair env fs). simpl. rewrite String.eqb_eq. split.
        -- intros E. apply bearer_header in P. now rewrite <- E, <- P.
        -- intros E. injection E as ->.
           apply (slice_app "Bearer " (V2.adminToken (V2.view env fs))).
      * split; [discriminate|]. intros E. injection E as ->.
        now rewrite (prefix_app "Bearer " (V2.adminToken (V2.view env fs))
                     : startsWith "Bearer " _ = true) in P.
    + split; [discriminate|]. intros E. injection E as ->.
      apply truthy_false in T. discriminate T.
  - simpl. split; discriminate.
Qed.

End credentials.

(** ** What every request keeps *)
Section preservation.
Import JS Http Props.

(** A property of the state that the four changes of the first version keep
    is kept by every request. *)
Lemma V1_server_preserves (P : V1.State -> Prop) :
  (forall d s, normalized d -> P s ->
     P (V1.MkState (V1.adminToken s)
          (if negb (includes d (V1.allow s)) then push d (V1.allow s) else V1.allow s)
          (filter_ne d (V1.block s)))) ->
  (forall d s, normalized d -> P s ->
     P (V1.MkState (V1.adminToken s) (filter_ne d (V1.allow s))
          (if negb (includes d (V1.block s)) then push d (V1.block s) else V1.block s))) ->
  (forall d s, P s ->
     P (V1.MkState (V1.adminToken s) (filter_ne d (V1.allow s)) (V1.block s))) ->
  (forall d s, P s ->
     P (V1.MkState (V1.adminToken s) (V1.allow s) (filter_ne d (V1.block s)))) ->
  forall req state fs, P state -> P (snd (fst (V1.server req state fs))).
Proof.
  intros Ha Hb Hua Hub req state fs H.
  assert (forall d, truthy (trim d) = true -> normalized (trim d)) as Hn.
  { intros d T. split; [now apply truthy_true | apply trim_idem]. }
  unfold V1.server.
  repeat match goal with
         | |- context [if ?c then _ else _] => destruct c; try exact H
         end;
    unfold V1.op_allow, V1.op_block, V1.op_unallow, V1.op_unblock, V1.body_deviceId.
  - destruct (truthy (trim (or_empty (V1.readBody (payload req))))) eqn:T;
      simpl; [|exact H]. apply Ha; [now apply Hn | exact H].
  - destruct (truthy (trim (or_empty (V1.readBody (payload req))))) eqn:T;
      simpl; [|exact H]. apply Hb; [now apply Hn | exact H].
  - now apply Hua.
  - now apply Hub.
Qed.

Lemma V1_reachable_preserves (P : V1.State -> Prop) (env : option string)
    (fs0 : disk V1.parsed) :
  (forall req state fs, P state -> P (snd (fst (V1.server req state fs)))) ->
  P (fst (V1.loadData env fs0)) ->
  forall p, V1.reachable env fs0 p -> P (fst p).
Proof.
  intros Hs H0 p Hr. induction Hr as [|req state fs _ IH|w state fs _ IH].
  - exact H0.
  - pose proof (Hs req state fs IH) as H.
    destruct (V1.server req state fs) as [[r state'] fs']. exact H.
  - exact IH.
Qed.

(** The same for the store of the second version, whether the write is
    accepted or not. *)
Lemma V2_server_preserves (P : V2.ServerData -> Prop) :
  (forall d now sd, P sd -> P (snd (V2.check_update d now sd))) ->
  (forall d sd, P sd -> P (V2.allow_update d sd)) ->
  (forall d sd, P sd -> P (V2.block_update d sd)) ->
  (forall d sd, P sd -> P (V2.set_allow (filter_ne d (V2.allow sd)) sd)) ->
  (forall d sd, P sd -> P (V2.set_block (filter_ne d (V2.block sd)) sd)) ->
  (forall sd, P sd -> P (V2.set_pending [] sd)) ->
  forall env req now fs,
    P (V2.view env fs) -> P (V2.view env (snd (V2.server env req now fs))).
Proof.
  intros Hc Ha Hb Hua Hub Hcp env req now fs H.
  assert (forall d fs', P (V2.view env fs') ->
                        P (V2.view env (snd (V2.op_check env d now fs')))) as Kc.
  { intros d fs' H'. destruct (truthy d) eqn:T.
    - rewrite op_check_view by exact T. destruct (retains fs'); [now apply Hc | exact H'].
    - unfold V2.op_check. now rewrite T. }
  assert (forall d fs', P (V2.view env fs') ->
                        P (V2.view env (snd (V2.op_allow env d fs')))) as Ka.
  { intros d fs' H'. destruct (truthy d) eqn:T.
    - rewrite op_allow_view by exact T. destruct (retains fs'); [now apply Ha | exact H'].
    - unfold V2.op_allow. now rewrite T. }
  assert (forall d fs', P (V2.view env fs') ->
                        P (V2.view env (snd (V2.op_block env d fs')))) as Kb.
  { intros d fs' H'. destruct (truthy d) eqn:T.
    - rewrite op_block_view by exact T. destruct (retains fs'); [now apply Hb | exact H'].
    - unfold V2.op_block. now rewrite T. }
  assert (forall d fs', P (V2.view env fs') ->
                        P (V2.view env (snd (V2.op_unallow env d fs')))) as Kua.
  { intros d fs' H'. destruct (truthy d) eqn:T.
    - rewrite op_unallow_view by exact T. destruct (retains fs'); [now apply Hua | exact H'].
    - unfold V2.op_unallow. now rewrite T. }
  assert (forall d fs', P (V2.view env fs') ->
                        P (V2.view env (snd (V2.op_unblock env d fs')))) as Kub.
  { intros d fs' H'. destruct (truthy d) eqn:T.
    - rewrite op_unblock_view by exact T. destruct (retains fs'); [now apply Hub | exact H'].
    - unfold V2.op_unblock. now rewrite T. }
  unfold V2.server.
  destruct (String.eqb (method req) "OPTIONS"); [exact H|].
  destruct (String.eqb (pathname req) "/health"); [exact H|].
  destruct (String.eqb (pathname req) "/check"); [now apply Kc|].
  pose proof (authenticateRequest_view env req fs) as Hv.
  destruct (V2.authenticateRequest env req fs) as [ok fs1]. simpl in Hv.
  rewrite <- Hv in H.
  destruct ok; simpl; [|exact H].
  destruct (String.eqb (pathname req) "/list").
  { now rewrite op_list_view. }
  destruct (String.eqb (pathname req) "/allow" && String.eqb (method req) "POST").
  { unfold V2.with_body. destruct (payload req); try exact H. now apply Ka. }
  destruct (String.eqb (pathname req) "/block" && String.eqb (method req) "POST").
  { unfold V2.with_body. destruct (payload req); try exact H. now apply Kb. }
  destruct (String.eqb (pathname req) "/allow" && String.eqb (method req) "DELETE").
  { now apply Kua. }
  destruct (String.eqb (pathname req) "/block" && String.eqb (method req) "DELETE").
  { now apply Kub. }
  destruct (String.eqb (pathname req) "/pending" && String.eqb (method req) "DELETE").
  { rewrite op_clearPending_view. destruct (retains fs1); [now apply Hcp | exact H]. }
  exact H.
Qed.

Lemma V2_reachable_preserves (P : V2.ServerData -> Prop) (env : option string)
    (fs0 : disk V2.parsed) :
  (forall req now fs, P (V2.view env fs) -> P (V2.view env (snd (V2.server env req now fs)))) ->
  P (V2.view env fs0) ->
  forall fs, V2.reachable env fs0 fs -> P (V2.view env fs).
Proof.
  intros Hs H0 fs Hr. induction Hr as [|req now fs _ IH|w fs _ IH].
  - exact H0.
  - now apply Hs.
  - now rewrite view_chmod.
Qed.

End preservation.

(** ** Access control *)
Section access_control.
Import JS Http Props.

(** In the first version a request that is not authorized changes neither
    the state nor the file, whatever its method, path and body are. *)
Theorem V1_unauthorized_changes_nothing (req : request) (state : V1.State)
    (fs : disk V1.parsed) :
  V1.isAuthorized req state = false ->
  snd (fst (V1.server req state fs)) = state /\ snd (V1.server req state fs) = fs.
Proof.
  intros H. unfold V1.server. rewrite H. simpl.
  destruct (String.eqb (method req) "OPTIONS"); [now split|].
  destruct (String.eqb (pathname req) "/health"); [now split|].
  now destruct (String.eqb (pathname req) "/check" && String.eqb (method req) "GET").
Qed.

Lemma V1_unauthorized_changes_nothing_witness :
  snd (fst (V1.server (with_authorization (Some "Bearer guess") (Run.POST_allow "dev1"))
                      (V1.seed None) Run.first_start)) = V1.seed None.
Proof.
  exact (proj1 (V1_unauthorized_changes_nothing
                  (with_authorization (Some "Bearer guess") (Run.POST_allow "dev1"))
                  (V1.seed None) Run.first_start eq_refl)).
Defined.

(** In the second version a request that [authenticateRequest] rejects
    leaves the allow list, the block list and the admin token of the store
    as they are; only [/check], which asks for no token, can still touch the
    pending list and [lastSeen].  On any other path the whole store is left
    as it is. *)
Theorem V2_unauthorized_keeps_lists (env : option string) (req : request)
    (now : string) (fs : disk V2.parsed) :
  fst (V2.authenticateRequest env req fs) = false ->
  (V2.allow (V2.view env (snd (V2.server env req now fs))) = V2.allow (V2.view env fs)
   /\ V2.block (V2.view env (snd (V2.server env req now fs))) = V2.block (V2.view env fs)
   /\ V2.adminToken (V2.view env (snd (V2.server env req now fs)))
      = V2.adminToken (V2.view env fs))
  /\ (pathname req <> "/check" ->
      V2.view env (snd (V2.server env req now fs)) = V2.view env fs).
Proof.
  intros H. unfold V2.server.
  destruct (String.eqb (method req) "OPTIONS"); [now repeat split|].
  destruct (String.eqb (pathname req) "/health"); [now repeat split|].
  destruct (String.eqb_spec (pathname req) "/check") as [Hp|Hp].
  - split; [|intros N; now destruct N].
    destruct (truthy (V2.check_deviceId req)) eqn:T.
    + rewrite op_check_view by exact T. destruct (retains fs); [|now repeat split].
      destruct (check_update_lists (V2.check_deviceId req) now (V2.view env fs))
        as [-> ->].
      now rewrite check_update_adminToken.
    + unfold V2.op_check. now rewrite T.
  - pose proof (authenticateRequest_view env req fs) as Hv.
    destruct (V2.authenticateRequest env req fs) as [ok fs1].
    simpl in H, Hv. subst ok. simpl. rewrite Hv. now repeat split.
Qed.

Lemma V2_unauthorized_keeps_lists_witness :
  V2.allow (V2.view None
     (snd (V2.server None (with_authorization None (Run.POST_block "dev1")) Run.t2
             (snd (V2.op_allow None "dev1" Run.first_start)))))
  = ["dev1"].
Proof.
  exact (proj1 (proj1 (V2_unauthorized_keeps_lists None
                  (with_authorization None (Run.POST_block "dev1")) Run.t2
                  (snd (V2.op_allow None "dev1" Run.first_start)) eq_refl))).
Defined.

Lemma V1_DEFAULT_ADMIN_TOKEN_truthy (env : option string) :
  truthy (V1.DEFAULT_ADMIN_TOKEN env) = true.
Proof. unfold V1.DEFAULT_ADMIN_TOKEN. now apply or_string_truthy. Qed.

Lemma V1_loadData_adminToken (env : option string) (fs : disk V1.parsed) :
  truthy (V1.adminToken (fst (V1.loadData env fs))) = true.
Proof.
  unfold V1.loadData. destruct (negb (existsSync fs));
    [apply V1_DEFAULT_ADMIN_TOKEN_truthy|].
  destruct (readFileSync fs) as [raw|]; [|apply V1_DEFAULT_ADMIN_TOKEN_truthy].
  destruct (JSON_parse (V1.or_empty_object raw)) as [p|];
    [|apply V1_DEFAULT_ADMIN_TOKEN_truthy].
  simpl. apply or_string_truthy, V1_DEFAULT_ADMIN_TOKEN_truthy.
Qed.

(** No request changes the admin token, and the token is never empty: in
    every state of a run of the first version it is the token that
    [loadData] returned at start, in every store of a run of the second
    version it is the token of the store found at start. *)
Theorem adminToken_never_changes (env : option string) :
  (forall (fs0 : disk V1.parsed) (state : V1.State) (fs : disk V1.parsed),
      V1.reachable env fs0 (state, fs) ->
      V1.adminToken state = V1.adminToken (fst (V1.loadData env fs0))
      /\ V1.adminToken state <> "")
  /\ (forall fs0 fs : disk V2.parsed,
      V2.reachable env fs0 fs ->
      V2.adminToken (V2.view env fs) = V2.adminToken (V2.view env fs0)
      /\ V2.adminToken (V2.view env fs) <> "").
Proof.
  split.
  - intros fs0 state fs Hr.
    assert (V1.adminToken state = V1.adminToken (fst (V1.loadData env fs0))) as E.
    { apply (V1_reachable_preserves
               (fun s => V1.adminToken s = V1.adminToken (fst (V1.loadData env fs0)))
               env fs0) with (p := (state, fs)); [|reflexivity|exact Hr].
      apply V1_server_preserves; intros; assumption. }
    split; [exact E|]. rewrite E. apply truthy_true, V1_loadData_adminToken.
  - intros fs0 fs Hr. split; [|apply truthy_true, view_adminToken].
    apply (V2_reachable_preserves
             (fun sd => V2.adminToken sd = V2.adminToken (V2.view env fs0))
             env fs0); [|reflexivity|exact Hr].
    intros req now.
    apply (V2_server_preserves
             (fun sd => V2.adminToken sd = V2.adminToken (V2.view env fs0))).
    + intros d now' sd H. now rewrite check_update_adminToken.
    + intros d sd H. now rewrite allow_update_adminToken.
    + intros d sd H. now rewrite block_update_adminToken.
    + intros d sd H. exact H.
    + intros d sd H. exact H.
    + intros sd H. exact H.
Qed.

Lemma adminToken_never_changes_witness :
  V2.adminToken (V2.view None (snd (V2.server None (Run.POST_allow "dev1") Run.t1
                                               Run.first_start)))
  = Run.token.
Proof.
  exact (proj1 (proj2 (adminToken_never_changes None) Run.first_start _
                  (V2.reach_request None Run.first_start (Run.POST_allow "dev1") Run.t1 _
                     (V2.reach_start None Run.first_start)))).
Defined.

End access_control.

(** ** Invariants of the lists *)
Section list_invariants.
Import JS Http Props.

Lemma NoDup_filter_ne (x : string) (l : list string) : NoDup l -> NoDup (filter_ne x l).
Proof.
  induction l as [|y l IH]; intros H; [exact H|].
  apply NoDup_cons in H as [Hy H]. unfold filter_ne in *. simpl.
  destruct (negb (String.eqb y x)); [|now apply IH].
  apply NoDup_cons. split; [|now apply IH].
  intros Hin. apply Hy. now apply (elem_of_filter_ne x y l) in Hin as [Hin _].
Qed.

Lemma NoDup_push_new (x : string) (l : list string) :
  NoDup l -> NoDup (if negb (includes x l) then push x l else l).
Proof.
  intros H. destruct (includes x l) eqn:E; simpl; [exact H|].
  apply includes_false in E. unfold push. apply NoDup_app. split; [exact H|]. split.
  - intros y Hy Hx. apply list_elem_of_singleton in Hx. now subst y.
  - apply NoDup_singleton.
Qed.

Lemma V2_no_duplicates_check (d now : string) (sd : V2.ServerData) :
  V2_no_duplicates sd -> V2_no_duplicates (snd (V2.check_update d now sd)).
Proof.
  intros (Ha & Hb & Hp). unfold V2.check_update. simpl.
  destruct (includes d (V2.allow sd)); [now repeat split|].
  destruct (includes d (V2.block sd)); [now repeat split|].
  pose proof (NoDup_push_new d (V2.pending sd) Hp) as Hn.
  destruct (includes d (V2.pending sd)); simpl in *; now repeat split.
Qed.

Lemma V2_no_duplicates_allow (d : string) (sd : V2.ServerData) :
  V2_no_duplicates sd -> V2_no_duplicates (V2.allow_update d sd).
Proof.
  intros (Ha & Hb & Hp). unfold V2.allow_update. simpl.
  pose proof (NoDup_push_new d (V2.allow sd) Ha) as Hn.
  destruct (includes d (V2.allow sd)); simpl in *;
    repeat split; try assumption; now apply NoDup_filter_ne.
Qed.

Lemma V2_no_duplicates_block (d : string) (sd : V2.ServerData) :
  V2_no_duplicates sd -> V2_no_duplicates (V2.block_update d sd).
Proof.
  intros (Ha & Hb & Hp). unfold V2.block_update. simpl.
  pose proof (NoDup_push_new d (V2.block sd) Hb) as Hn.
  destruct (includes d (V2.block sd)); simpl in *;
    repeat split; try assumption; now apply NoDup_filter_ne.
Qed.

(** The lists behave as sets: no request ever stores an identifier twice in
    a list.  A run that starts from lists without duplicates (a fresh or
    corrupt file, or one the server wrote) never reaches a list with a
    duplicate, in either version. *)
Theorem lists_never_hold_duplicates (env : option string) :
  (forall (fs0 : disk V1.parsed) (state : V1.State) (fs : disk V1.parsed),
      V1_no_duplicates (fst (V1.loadData env fs0)) ->
      V1.reachable env fs0 (state, fs) ->
      V1_no_duplicates state)
  /\ (forall fs0 fs : disk V2.parsed,
      V2_no_duplicates (V2.view env fs0) ->
      V2.reachable env fs0 fs ->
      V2_no_duplicates (V2.view env fs)).
Proof.
  split.
  - intros fs0 state fs H0 Hr.
    apply (V1_reachable_preserves V1_no_duplicates env fs0) with (p := (state, fs));
      [|exact H0|exact Hr].
    apply V1_server_preserves.
    + intros d s _ [Ha Hb]. split; simpl;
        [now apply NoDup_push_new | now apply NoDup_filter_ne].
    + intros d s _ [Ha Hb]. split; simpl;
        [now apply NoDup_filter_ne | now apply NoDup_push_new].
    + intros d s [Ha Hb]. split; simpl; [now apply NoDup_filter_ne | exact Hb].
    + intros d s [Ha Hb]. split; simpl; [exact Ha | now apply NoDup_filter_ne].
  - intros fs0 fs H0 Hr.
    apply (V2_reachable_preserves V2_no_duplicates env fs0); [|exact H0|exact Hr].
    intros req now. apply (V2_server_preserves V2_no_duplicates).
    + intros d now' sd. apply V2_no_duplicates_check.
    + intros d sd. apply V2_no_duplicates_allow.
    + intros d sd. apply V2_no_duplicates_block.
    + intros d sd (Ha & Hb & Hp). repeat split; simpl; try assumption.
      now apply NoDup_filter_ne.
    + intros d sd (Ha & Hb & Hp). repeat split; simpl; try assumption.
      now apply NoDup_filter_ne.
    + intros sd (Ha & Hb & Hp). repeat split; simpl; try assumption. apply NoDup_nil_2.
Qed.

Lemma lists_never_hold_duplicates_witness :
  V2_no_duplicates
    (V2.view None (snd (V2.server None (Run.GET_check "dev1") Run.t2
                          (snd (V2.server None (Run.GET_check "dev1") Run.t1
                                          Run.first_start))))).
Proof.
  apply (proj2 (lists_never_hold_duplicates None) Run.first_start).
  - repeat split; apply NoDup_nil_2.
  - apply V2.reach_request, V2.reach_request, V2.reach_start.
Defined.

(** Invariant I2 of the second version: a pending identifier is neither
    allowed nor blocked.  [/check] pushes only unclassified identifiers,
    [allow] and [block] take the identifier out of the pending list, and no
    other request adds to a list; so a run that starts from a store with I2
    keeps it. *)
Theorem pending_stays_unclassified (env : option string) (fs0 fs : disk V2.parsed) :
  I2 (V2.view env fs0) -> V2.reachable env fs0 fs -> I2 (V2.view env fs).
Proof.
  intros H0 Hr.
  apply (V2_reachable_preserves I2 env fs0); [|exact H0|exact Hr].
  intros req now. apply (V2_server_preserves I2).
  - intros d now' sd H x. unfold V2.check_update. simpl.
    destruct (includes d (V2.allow sd)) eqn:Ea; [apply H|].
    destruct (includes d (V2.block sd)) eqn:Eb; [apply H|].
    destruct (includes d (V2.pending sd)) eqn:Ep; simpl; [apply H|].
    intros Hx. apply elem_of_push in Hx as [Hx| ->]; [now apply H|].
    split; now apply includes_false.
  - intros d sd H x Hx. rewrite allow_update_pending in Hx.
    apply elem_of_filter_ne in Hx as [Hx Hne]. destruct (H x Hx) as [Ha Hb]. split.
    + rewrite allow_update_allow. tauto.
    + rewrite allow_update_block, elem_of_filter_ne. tauto.
  - intros d sd H x Hx. rewrite block_update_pending in Hx.
    apply elem_of_filter_ne in Hx as [Hx Hne]. destruct (H x Hx) as [Ha Hb]. split.
    + rewrite block_update_allow, elem_of_filter_ne. tauto.
    + rewrite block_update_block. tauto.
  - intros d sd H x Hx. simpl in *. destruct (H x Hx) as [Ha Hb]. split; [|exact Hb].
    rewrite elem_of_filter_ne. tauto.
  - intros d sd H x Hx. simpl in *. destruct (H x Hx) as [Ha Hb]. split; [exact Ha|].
    rewrite elem_of_filter_ne. tauto.
  - intros sd H x Hx. simpl in Hx. now apply not_elem_of_nil in Hx.
Qed.

Lemma pending_stays_unclassified_witness :
  I2 (V2.view None (snd (V2.server None (Run.POST_allow "dev1") Run.t2
                           (snd (V2.server None (Run.GET_check "dev1") Run.t1
                                           Run.first_start))))).
Proof.
  apply (pending_stays_unclassified None Run.first_start).
  - intros x Hx. simpl in Hx. now apply not_elem_of_nil in Hx.
  - apply V2.reach_request, V2.reach_request, V2.reach_start.
Defined.

(** The first version stores only identifiers that are trimmed and not
    empty: [allow] and [block] trim the identifier of the body and refuse
    the empty one, and the two removals add nothing.  So the check of a
    stored identifier, sent as it is stored, looks up that identifier. *)
Theorem V1_stores_normalized_identifiers (env : option string)
    (fs0 : disk V1.parsed) (state : V1.State) (fs : disk V1.parsed) :
  all_normalized (V1.allow (fst (V1.loadData env fs0))) ->
  all_normalized (V1.block (fst (V1.loadData env fs0))) ->
  V1.reachable env fs0 (state, fs) ->
  forall x : string, x ∈ V1.allow state \/ x ∈ V1.block state ->
    normalized x
    /\ V1.server (Run.GET_check x) state fs = (V1.op_check x state, state, fs).
Proof.
  intros Ha0 Hb0 Hr.
  assert (all_normalized (V1.allow state) /\ all_normalized (V1.block state)) as [Ha Hb].
  { apply (V1_reachable_preserves
             (fun s => all_normalized (V1.allow s) /\ all_normalized (V1.block s))
             env fs0) with (p := (state, fs)); [|now split|exact Hr].
    apply V1_server_preserves.
    - intros d s Hd [Ka Kb]. split; simpl.
      + destruct (includes d (V1.allow s)); simpl; [exact Ka|].
        intros x Hx. apply elem_of_push in Hx as [Hx| ->]; [now apply Ka | exact Hd].
      + intros x Hx. apply elem_of_filter_ne in Hx as [Hx _]. now apply Kb.
    - intros d s Hd [Ka Kb]. split; simpl.
      + intros x Hx. apply elem_of_filter_ne in Hx as [Hx _]. now apply Ka.
      + destruct (includes d (V1.block s)); simpl; [exact Kb|].
        intros x Hx. apply elem_of_push in Hx as [Hx| ->]; [now apply Kb | exact Hd].
    - intros d s [Ka Kb]. split; simpl; [|exact Kb].
      intros x Hx. apply elem_of_filter_ne in Hx as [Hx _]. now apply Ka.
    - intros d s [Ka Kb]. split; simpl; [exact Ka|].
      intros x Hx. apply elem_of_filter_ne in Hx as [Hx _]. now apply Kb. }
  intros x Hx.
  assert (normalized x) as Hn by (destruct Hx as [Hx|Hx]; [now apply Ha | now apply Hb]).
  split; [exact Hn|].
  rewrite V1_server_check by reflexivity.
  unfold V1.query_deviceId. simpl. now rewrite (proj2 Hn).
Qed.

Lemma V1_stores_normalized_identifiers_witness :
  normalized "dev1".
Proof.
  refine (proj1 (V1_stores_normalized_identifiers None Run.first_start
                   (V1.MkState Run.token ["dev1"] [])
                   (V1.saveData (V1.MkState Run.token ["dev1"] [])
                                (snd (V1.loadData None Run.first_start)))
                   _ _ _ "dev1" _)).
  - intros x Hx. simpl in Hx. now apply not_elem_of_nil in Hx.
  - intros x Hx. simpl in Hx. now apply not_elem_of_nil in Hx.
  - exact (V1.reach_request None Run.first_start (Run.POST_allow "  dev1 ") _ _
             (V1.reach_start None Run.first_start)).
  - left. apply includes_true. reflexivity.
Defined.

End list_invariants.

(** ** Persistence *)
Section persistence.
Import JS Http Props.

(** Round trip of the second version: what [saveServerData] wrote,
    [loadServerData] reads back unchanged and without writing again,
    provided the write is accepted, the file is one that can be read and the
    admin token is not empty.  An empty token does not survive: it is read
    back as the default token.  From a file whose read throws nothing is
    read back: the load returns the seed. *)
Theorem V2_save_load_round_trip (env : option string) (d : V2.ServerData)
    (fs : disk V2.parsed) :
  writable fs = true ->
  (content fs <> Unreadable ->
   (V2.adminToken d <> "" ->
    V2.loadServerData env (V2.saveServerData d fs) = (d, V2.saveServerData d fs))
   /\ (V2.adminToken d = "" ->
       fst (V2.loadServerData env (V2.saveServerData d fs))
       = V2.MkData (V2.DEFAULT_ADMIN_TOKEN env) (V2.allow d) (V2.block d)
                   (V2.pending d) (V2.lastSeen d)))
  /\ (content fs = Unreadable ->
      fst (V2.loadServerData env (V2.saveServerData d fs)) = V2.seed env).
Proof.
  intros W. split.
  - intros C. assert (retains fs = true) as R by (apply retains_true; now split).
    unfold V2.saveServerData. rewrite try_write_retained by exact R. split.
    + intros Ht. apply truthy_true in Ht.
      unfold V2.loadServerData, V2.read_stored, V2.of_parsed. cbn -[or_string].
      rewrite or_string_id by exact Ht. now destruct d.
    + intros Ht. unfold V2.loadServerData, V2.read_stored, V2.of_parsed.
      cbn -[or_string]. now rewrite Ht.
  - intros C. unfold V2.saveServerData. rewrite try_write_open by exact W.
    rewrite C. reflexivity.
Qed.

Lemma V2_save_load_round_trip_witness :
  V2.loadServerData None
    (V2.saveServerData (V2.MkData "tok" ["a"] ["b"] ["c"] {["a" := Run.t1]})
                       Run.first_start)
  = (V2.MkData "tok" ["a"] ["b"] ["c"] {["a" := Run.t1]},
     V2.saveServerData (V2.MkData "tok" ["a"] ["b"] ["c"] {["a" := Run.t1]})
                       Run.first_start).
Proof.
  refine (proj1 (proj1 (V2_save_load_round_trip None
                    (V2.MkData "tok" ["a"] ["b"] ["c"] {["a" := Run.t1]})
                    Run.first_start eq_refl) _) _); discriminate.
Defined.

Lemma V1_save_load (env : option string) (s : V1.State) (fs : disk V1.parsed) :
  writable fs = true -> content fs <> Unreadable ->
  truthy (V1.adminToken s) = true ->
  V1.loadData env (V1.saveData s fs) = (s, V1.saveData s fs).
Proof.
  intros W C Ht. unfold V1.saveData, try_write, writeFileSync. rewrite W.
  assert (written (content fs) (V1.JSON_stringify s)
          = Readable (Json (V1.JSON_stringify s))) as ->.
  { destruct (content fs); try reflexivity. now destruct C. }
  unfold V1.loadData, V1.repair. cbn -[or_string].
  rewrite or_string_id by exact Ht. now destruct s.
Qed.

(** The first version survives a restart: whenever a request changes the
    state, the file system accepts the write and the file is one that can be
    read, [loadData] on the file left by the request returns exactly the new
    state.  (The token of a loaded state is never empty.) *)
Theorem V1_restart_recovers_state (env : option string) (req : request)
    (state : V1.State) (fs : disk V1.parsed) :
  writable fs = true -> content fs <> Unreadable -> V1.adminToken state <> "" ->
  snd (fst (V1.server req state fs)) <> state ->
  V1.loadData env (snd (V1.server req state fs))
  = (snd (fst (V1.server req state fs)), snd (V1.server req state fs)).
Proof.
  intros W C Ht. apply truthy_true in Ht. unfold V1.server.
  repeat match goal with
         | |- context [if ?c then _ else _] => destruct c; try (intros N; now destruct N)
         end;
    unfold V1.op_allow, V1.op_block, V1.op_unallow, V1.op_unblock;
    repeat match goal with
           | |- context [negb (truthy ?d)] =>
               destruct (negb (truthy d)); try (intros N; now destruct N)
           end; simpl; intros _; now apply V1_save_load.
Qed.

Lemma V1_restart_recovers_state_witness :
  fst (V1.loadData None
         (snd (V1.server (Run.POST_block "dev1") (V1.seed None) Run.first_start)))
  = V1.MkState Run.token [] ["dev1"].
Proof.
  refine (f_equal fst (V1_restart_recovers_state None (Run.POST_block "dev1")
                         (V1.seed None) Run.first_start eq_refl _ _ _));
    discriminate.
Defined.

(** What loading does to the file.  [loadData] of the first version never
    writes to a file that exists, even a corrupt one.  [loadServerData] of the
    second version leaves a file with a stored document alone.  It writes the
    seed over every other file when the write is accepted: a missing, empty
    or malformed file then holds the seed and the next load reads it; a file
    whose read throws stays as it is for every reader, so each later load
    finds it unreadable again and returns the seed. *)
Theorem load_and_the_file (env : option string) :
  (forall fs : disk V1.parsed,
      existsSync fs = true -> snd (V1.loadData env fs) = fs)
  /\ (forall fs : disk V2.parsed,
      corrupt (content fs) = false -> snd (V2.loadServerData env fs) = fs)
  /\ (forall fs : disk V2.parsed,
      corrupt (content fs) = true -> content fs <> Unreadable -> writable fs = true ->
      snd (V2.loadServerData env fs)
      = Disk (Readable (Json (V2.JSON_stringify (V2.seed env)))) true)
  /\ (forall fs : disk V2.parsed,
      content fs = Unreadable ->
      content (snd (V2.loadServerData env fs)) = Unreadable
      /\ V2.loadServerData env (snd (V2.loadServerData env fs))
         = (V2.seed env, snd (V2.loadServerData env fs))).
Proof.
  split; [|split; [|split]].
  - intros fs H. unfold V1.loadData. rewrite H. simpl.
    destruct (readFileSync fs) as [raw|]; [|reflexivity].
    now destruct (JSON_parse (V1.or_empty_object raw)).
  - intros fs H. unfold V2.loadServerData, V2.read_stored, existsSync, readFileSync.
    destruct (content fs) as [| |[| |v]]; try discriminate H. reflexivity.
  - intros fs H C W. unfold V2.loadServerData, V2.read_stored, existsSync, readFileSync.
    destruct (content fs) as [| |[| |v]] eqn:E; try discriminate H; simpl;
      try (now destruct C); rewrite try_write_open by exact W; now rewrite E.
  - intros fs C.
    assert (forall fs' : disk V2.parsed, content fs' = Unreadable ->
              V2.loadServerData env fs'
              = (V2.seed env, try_write fs' (V2.JSON_stringify (V2.seed env)))
              /\ content (try_write fs' (V2.JSON_stringify (V2.seed env)))
                 = Unreadable
              /\ try_write (try_write fs' (V2.JSON_stringify (V2.seed env)))
                           (V2.JSON_stringify (V2.seed env))
                 = try_write fs' (V2.JSON_stringify (V2.seed env))) as K.
    { intros fs' C'. split.
      - unfold V2.loadServerData, V2.read_stored, existsSync, readFileSync.
        now rewrite C'.
      - unfold try_write, writeFileSync. destruct (writable fs') eqn:W; simpl.
        + rewrite C'. simpl. now split.
        + rewrite W. now split. }
    destruct (K fs C) as (E1 & E2 & E3). rewrite E1. simpl. split; [exact E2|].
    destruct (K _ E2) as (E4 & _ & _). rewrite E4. now rewrite E3.
Qed.

Lemma load_and_the_file_witness :
  snd (V1.loadData None (Disk (Readable Garbage) true)) = Disk (Readable Garbage) true
  /\ snd (V2.loadServerData None (Disk (Readable Garbage) true))
     = Disk (Readable (Json (V2.JSON_stringify (V2.seed None)))) true.
Proof.
  split.
  - exact (proj1 (load_and_the_file None) (Disk (Readable Garbage) true) eq_refl).
  - refine (proj1 (proj2 (proj2 (load_and_the_file None)))
              (Disk (Readable Garbage) true) eq_refl _ eq_refl).
    discriminate.
Defined.

End persistence.

(** ** Removing, refusing, composing *)
Section operations_more.
Import JS Http Props.

(** [DELETE /allow] and [DELETE /block] of the first version: the identifier
    is gone from its list, every other identifier stays, the other list is
    untouched, and removing an identifier that is not listed changes nothing.
    The identifier is not tested: the empty one is accepted like any other. *)
Theorem V1_unallow_unblock (d : string) (state : V1.State) (fs : disk V1.parsed) :
  ((d ∉ V1.allow (snd (fst (V1.op_unallow d state fs))))
   /\ (forall x, x <> d ->
         (x ∈ V1.allow (snd (fst (V1.op_unallow d state fs))) <-> x ∈ V1.allow state))
   /\ V1.block (snd (fst (V1.op_unallow d state fs))) = V1.block state
   /\ (d ∉ V1.allow state -> snd (fst (V1.op_unallow d state fs)) = state))
  /\ ((d ∉ V1.block (snd (fst (V1.op_unblock d state fs))))
      /\ (forall x, x <> d ->
            (x ∈ V1.block (snd (fst (V1.op_unblock d state fs))) <-> x ∈ V1.block state))
      /\ V1.allow (snd (fst (V1.op_unblock d state fs))) = V1.allow state
      /\ (d ∉ V1.block state -> snd (fst (V1.op_unblock d state fs)) = state)).
Proof.
  unfold V1.op_unallow, V1.op_unblock. simpl.
  split; (split; [apply not_elem_of_filter_ne|]); (split; [|split; [reflexivity|]]).
  - intros x Hne. rewrite elem_of_filter_ne. tauto.
  - intros Hd. rewrite filter_ne_id by exact Hd. now destruct state.
  - intros x Hne. rewrite elem_of_filter_ne. tauto.
  - intros Hd. rewrite filter_ne_id by exact Hd. now destruct state.
Qed.

Lemma V1_unallow_unblock_witness :
  "a" ∈ V1.allow (snd (fst (V1.op_unallow "b" (V1.MkState Run.token ["a"; "b"] [])
                                          Run.first_start))).
Proof.
  apply (proj1 (proj2 (proj1 (V1_unallow_unblock "b"
                                (V1.MkState Run.token ["a"; "b"] []) Run.first_start)))
           "a"); [discriminate|].
  apply includes_true. reflexivity.
Defined.

(** [DELETE /allow] and [DELETE /block] of the second version, the write
    being accepted: the identifier is gone from its list and every other
    member of the store is as before; the identifier is not put back on the
    pending list.  The empty identifier is refused with status 400 and the
    file is not even read. *)
Theorem V2_unallow_unblock (env : option string) (d : string) (fs : disk V2.parsed) :
  (d <> "" -> writable fs = true ->
   V2.view env (snd (V2.op_unallow env d fs))
   = V2.set_allow (filter_ne d (V2.allow (V2.view env fs))) (V2.view env fs)
   /\ (d ∉ V2.allow (V2.view env (snd (V2.op_unallow env d fs))))
   /\ V2.view env (snd (V2.op_unblock env d fs))
      = V2.set_block (filter_ne d (V2.block (V2.view env fs))) (V2.view env fs)
   /\ (d ∉ V2.block (V2.view env (snd (V2.op_unblock env d fs)))))
  /\ (d = "" ->
      V2.op_unallow env d fs = (Error 400 "deviceId required", fs)
      /\ V2.op_unblock env d fs = (Error 400 "deviceId required", fs)).
Proof.
  split.
  - intros Hd W. apply truthy_true in Hd.
    rewrite op_unallow_view, op_unblock_view by exact Hd.
    destruct (retains fs) eqn:R; simpl.
    + repeat split; apply not_elem_of_filter_ne.
    + rewrite (view_write_only env fs W R). simpl.
      repeat split; apply not_elem_of_nil.
  - intros ->. split; reflexivity.
Qed.

Lemma V2_unallow_unblock_witness :
  V2.view None (snd (V2.op_unallow None "dev1"
                       (snd (V2.op_allow None "dev1" Run.first_start))))
  = V2.seed None.
Proof.
  assert ("dev1" <> "") as Hd by discriminate.
  destruct (proj1 (V2_unallow_unblock None "dev1"
                     (snd (V2.op_allow None "dev1" Run.first_start))) Hd eq_refl)
    as (H & _).
  exact H.
Defined.

(** A request body without a usable identifier changes nothing.  The first
    version answers every such [POST /allow] and [POST /block] (no data, bad
    JSON, no [deviceId], an empty or blank one) with 400 "deviceId required".
    The second version answers no data and bad JSON with 400 "Invalid JSON"
    and a missing or empty [deviceId] with 400 "deviceId required", and its
    store is as before. *)
Theorem unusable_body_is_refused (env : option string) (req : request) :
  method req = "POST" ->
  pathname req = "/allow" \/ pathname req = "/block" ->
  (forall (state : V1.State) (fs : disk V1.parsed),
      V1.isAuthorized req state = true ->
      V1.body_deviceId req = "" ->
      V1.server req state fs = (Error 400 "deviceId required", state, fs))
  /\ (forall (now : string) (fs : disk V2.parsed),
      fst (V2.authenticateRequest env req fs) = true ->
      (payload req = NoBody \/ payload req = BadJson ->
       fst (V2.server env req now fs) = Error 400 "Invalid JSON"
       /\ V2.view env (snd (V2.server env req now fs)) = V2.view env fs)
      /\ (payload req = JsonObject None \/ payload req = JsonObject (Some "") ->
          fst (V2.server env req now fs) = Error 400 "deviceId required"
          /\ V2.view env (snd (V2.server env req now fs)) = V2.view env fs)).
Proof.
  intros Hm Hp. split.
  - intros state fs Ha Hd. unfold V1.server. rewrite Hm, Ha.
    destruct Hp as [Hp|Hp]; rewrite Hp; simpl;
      unfold V1.op_allow, V1.op_block; now rewrite Hd.
  - intros now fs Ha.
    pose proof (authenticateRequest_view env req fs) as Hv.
    unfold V2.server. rewrite Hm.
    destruct (V2.authenticateRequest env req fs) as [ok fs1].
    simpl in Ha, Hv. subst ok.
    split; intros Hb; destruct Hp as [Hp|Hp]; rewrite Hp; simpl;
      destruct Hb as [Hb|Hb]; rewrite Hb; simpl; now split.
Qed.

Lemma unusable_body_is_refused_witness :
  V1.server (Request "POST" "/allow" [] Run.bearer (JsonObject (Some "   ")))
            (V1.seed None) Run.first_start
  = (Error 400 "deviceId required", V1.seed None, Run.first_start)
  /\ fst (V2.server None (Request "POST" "/block" [] Run.bearer BadJson) Run.t1
                    Run.first_start)
     = Error 400 "Invalid JSON".
Proof.
  split.
  - exact (proj1 (unusable_body_is_refused None
                    (Request "POST" "/allow" [] Run.bearer (JsonObject (Some "   ")))
                    eq_refl (or_introl eq_refl))
             (V1.seed None) Run.first_start eq_refl eq_refl).
  - exact (proj1 (proj1 (proj2 (unusable_body_is_refused None
                    (Request "POST" "/block" [] Run.bearer BadJson)
                    eq_refl (or_intror eq_refl))
             Run.t1 Run.first_start eq_refl) (or_intror eq_refl))).
Defined.

(** Operations compose as an operator expects.  After [allow(d)] the check
    of [d] is answered allowed, after [block(d)] it is answered blocked
    ("blocked" in the first version, "device blocked" in the second), and
    after [allow(d)] followed by the removal of [d] it is answered
    "not allowed" again.  In the second version the writes have to be
    accepted by a file that can be read. *)
Theorem check_after_allow_block (env : option string) (d : string) :
  d <> "" ->
  (forall (state : V1.State) (fs : disk V1.parsed),
      V1.op_check d (snd (fst (V1.op_allow d state fs))) = Decision 200 true false 30 ""
      /\ V1.op_check d (snd (fst (V1.op_block d state fs)))
         = Decision 200 false true 30 "blocked"
      /\ V1.op_check d (snd (fst (V1.op_unallow d (snd (fst (V1.op_allow d state fs)))
                                                 (snd (V1.op_allow d state fs)))))
         = Decision 200 false true 30 "not allowed")
  /\ (forall (now : string) (fs : disk V2.parsed),
      writable fs = true -> content fs <> Unreadable ->
      fst (V2.op_check env d now (snd (V2.op_allow env d fs)))
      = Decision 200 true false 30 ""
      /\ fst (V2.op_check env d now (snd (V2.op_block env d fs)))
         = Decision 200 false true 30 "device blocked"
      /\ fst (V2.op_check env d now
                (snd (V2.op_unallow env d (snd (V2.op_allow env d fs)))))
         = Decision 200 false true 30 "not allowed").
Proof.
  intros Hd. apply truthy_true in Hd.
  assert (forall l, includes d (filter_ne d l) = false) as Hf.
  { intros l. apply includes_false, not_elem_of_filter_ne. }
  assert (forall l, includes d (if negb (includes d l) then push d l else l) = true) as Hi.
  { intros l. destruct (includes d l) eqn:E; simpl; [exact E|].
    apply includes_true, elem_of_push. now right. }
  split.
  - intros state fs. unfold V1.op_check, V1.op_allow, V1.op_block, V1.op_unallow.
    rewrite Hd. simpl. now rewrite !Hf, !Hi.
  - intros now fs W C.
    assert (retains fs = true) as R by (apply retains_true; now split).
    assert (retains (snd (V2.op_allow env d fs)) = true) as Ra.
    { unfold V2.op_allow. rewrite Hd, (load_pair env fs). simpl.
      now rewrite retains_save, retains_load. }
    rewrite !op_check_answer by exact Hd.
    rewrite (op_unallow_view env d (snd (V2.op_allow env d fs))), Ra by exact Hd.
    rewrite op_allow_view, op_block_view, R by exact Hd.
    unfold V2.check_update. simpl. repeat split.
    + assert (includes d (V2.allow (V2.allow_update d (V2.view env fs))) = true) as ->;
        [|reflexivity].
      apply includes_true, allow_update_allow. now right.
    + rewrite block_update_allow, Hf.
      assert (includes d (V2.block (V2.block_update d (V2.view env fs))) = true) as ->;
        [|reflexivity].
      apply includes_true, block_update_block. now right.
    + rewrite Hf, allow_update_block, Hf.
      now destruct (includes d (V2.pending (V2.allow_update d (V2.view env fs)))).
Qed.

Lemma check_after_allow_block_witness :
  V1.op_check "dev1" (snd (fst (V1.op_allow "dev1" (V1.seed None) Run.first_start)))
  = Decision 200 true false 30 ""
  /\ fst (V2.op_check None "dev1" Run.t1 (snd (V2.op_block None "dev1" Run.first_start)))
     = Decision 200 false true 30 "device blocked".
Proof.
  assert ("dev1" <> "") as Hd by discriminate.
  destruct (check_after_allow_block None "dev1" Hd) as [H1 H2].
  split.
  - exact (proj1 (H1 (V1.seed None) Run.first_start)).
  - refine (proj1 (proj2 (H2 Run.t1 Run.first_start eq_refl _))). discriminate.
Defined.

End operations_more.

(** ** Frames and answers *)
Section frames.
Import JS Http Props.

Lemma assign_lookup_ne (o : gmap string string) (k v x : string) :
  x <> k -> assign o k v !! x = o !! x.
Proof.
  intros H. unfold assign.
  destruct (String.eqb k "__proto__"); [destruct (o !! k)|];
    try reflexivity; now apply lookup_insert_ne.
Qed.

(** A check of [d] in the second version touches nothing but [d]: the
    [lastSeen] entry and the pending membership of every other identifier
    are as before, and nothing is ever taken off the pending list.  This
    holds whether or not the write is accepted. *)
Theorem V2_check_touches_only_its_device (env : option string) (d now : string)
    (fs : disk V2.parsed) :
  (forall x : string, x <> d ->
      V2.lastSeen (V2.view env (snd (V2.op_check env d now fs))) !! x
      = V2.lastSeen (V2.view env fs) !! x
      /\ (x ∈ V2.pending (V2.view env (snd (V2.op_check env d now fs)))
          <-> x ∈ V2.pending (V2.view env fs)))
  /\ (forall y : string, y ∈ V2.pending (V2.view env fs) ->
      y ∈ V2.pending (V2.view env (snd (V2.op_check env d now fs)))).
Proof.
  destruct (truthy d) eqn:T.
  - rewrite op_check_view by exact T. destruct (retains fs); [|now split].
    unfold V2.check_update. simpl.
    destruct (includes d (V2.allow (V2.view env fs)));
      [|destruct (includes d (V2.block (V2.view env fs)));
        [|destruct (includes d (V2.pending (V2.view env fs)))]]; simpl;
      (split; [intros x Hx; split; [now apply assign_lookup_ne|] | ]);
      try tauto.
    + rewrite elem_of_push. tauto.
    + intros y Hy. apply elem_of_push. now left.
  - unfold V2.op_check. rewrite T. simpl. now split.
Qed.

Lemma V2_check_touches_only_its_device_witness :
  V2.lastSeen (V2.view None (snd (V2.op_check None "b" Run.t2
                 (snd (V2.op_check None "a" Run.t1 Run.first_start))))) !! "a"
  = Some Run.t1.
Proof.
  assert ("a" <> "b") as Hx by discriminate.
  rewrite (proj1 (proj1 (V2_check_touches_only_its_device None "b" Run.t2
                           (snd (V2.op_check None "a" Run.t1 Run.first_start)))
                    "a" Hx)).
  reflexivity.
Defined.

(** [allow(d)] and [block(d)] touch nothing but [d]: for every other
    identifier the membership in each list is as before, in both versions,
    and the second version leaves [lastSeen] alone. *)
Theorem allow_block_touch_only_their_device (env : option string) (d x : string) :
  x <> d ->
  (forall (state : V1.State) (fs : disk V1.parsed),
      ((x ∈ V1.allow (snd (fst (V1.op_allow d state fs))) <-> x ∈ V1.allow state)
       /\ (x ∈ V1.block (snd (fst (V1.op_allow d state fs))) <-> x ∈ V1.block state))
      /\ ((x ∈ V1.allow (snd (fst (V1.op_block d state fs))) <-> x ∈ V1.allow state)
          /\ (x ∈ V1.block (snd (fst (V1.op_block d state fs))) <-> x ∈ V1.block state)))
  /\ (forall fs : disk V2.parsed,
      ((x ∈ V2.allow (V2.view env (snd (V2.op_allow env d fs)))
        <-> x ∈ V2.allow (V2.view env fs))
       /\ (x ∈ V2.block (V2.view env (snd (V2.op_allow env d fs)))
           <-> x ∈ V2.block (V2.view env fs))
       /\ (x ∈ V2.pending (V2.view env (snd (V2.op_allow env d fs)))
           <-> x ∈ V2.pending (V2.view env fs))
       /\ V2.lastSeen (V2.view env (snd (V2.op_allow env d fs)))
          = V2.lastSeen (V2.view env fs))
      /\ ((x ∈ V2.allow (V2.view env (snd (V2.op_block env d fs)))
           <-> x ∈ V2.allow (V2.view env fs))
          /\ (x ∈ V2.block (V2.view env (snd (V2.op_block env d fs)))
              <-> x ∈ V2.block (V2.view env fs))
          /\ (x ∈ V2.pending (V2.view env (snd (V2.op_block env d fs)))
              <-> x ∈ V2.pending (V2.view env fs))
          /\ V2.lastSeen (V2.view env (snd (V2.op_block env d fs)))
             = V2.lastSeen (V2.view env fs))).
Proof.
  intros Hx. split.
  - intros state fs. unfold V1.op_allow, V1.op_block.
    destruct (truthy d); simpl; [|tauto].
    destruct (includes d (V1.allow state)), (includes d (V1.block state)); simpl;
      rewrite ?elem_of_filter_ne, ?elem_of_push; tauto.
  - intros fs. destruct (truthy d) eqn:T.
    + rewrite op_allow_view, op_block_view by exact T.
      destruct (retains fs); [|tauto].
      rewrite allow_update_allow, allow_update_block, allow_update_pending.
      rewrite block_update_allow, block_update_block, block_update_pending.
      rewrite !elem_of_filter_ne.
      assert (V2.lastSeen (V2.allow_update d (V2.view env fs))
              = V2.lastSeen (V2.view env fs)) as ->.
      { unfold V2.allow_update. simpl.
        now destruct (includes d (V2.allow (V2.view env fs))). }
      assert (V2.lastSeen (V2.block_update d (V2.view env fs))
              = V2.lastSeen (V2.view env fs)) as ->.
      { unfold V2.block_update. simpl.
        now destruct (includes d (V2.block (V2.view env fs))). }
      tauto.
    + unfold V2.op_allow, V2.op_block. rewrite T. simpl. tauto.
Qed.

Lemma allow_block_touch_only_their_device_witness :
  "a" ∈ V2.block (V2.view None (snd (V2.op_allow None "b"
                                       (snd (V2.op_block None "a" Run.first_start))))).
Proof.
  assert ("a" <> "b") as Hx by discriminate.
  apply (proj1 (proj2 (proj1 (proj2 (allow_block_touch_only_their_device None "b" "a" Hx)
                                (snd (V2.op_block None "a" Run.first_start)))))).
  apply includes_true. vm_compute. reflexivity.
Defined.

(** The server never lets a device run that is not on the allow list.  An
    answer with allowed=true is only given to a check whose trimmed
    [deviceId] is not empty and is in the allow list; in the first version it
    is moreover not in the block list.  No other route answers with
    allowed=true. *)
Theorem allowed_only_if_listed (env : option string) (req : request) :
  (forall (state : V1.State) (fs : disk V1.parsed),
      allows (fst (fst (V1.server req state fs))) = true ->
      V1.query_deviceId req <> ""
      /\ V1.query_deviceId req ∈ V1.allow state
      /\ (V1.query_deviceId req ∉ V1.block state))
  /\ (forall (now : string) (fs : disk V2.parsed),
      allows (fst (V2.server env req now fs)) = true ->
      V2.check_deviceId req <> ""
      /\ V2.check_deviceId req ∈ V2.allow (V2.view env fs)).
Proof.
  split.
  - intros state fs. unfold V1.server.
    repeat match goal with
           | |- context [if ?c then _ else _] =>
               destruct c; try (simpl; intros N; discriminate N)
           end.
    + unfold V1.op_check. simpl.
      destruct (truthy (V1.query_deviceId req)) eqn:T; simpl; [|discriminate].
      destruct (includes (V1.query_deviceId req) (V1.block state)) eqn:Eb;
        simpl; [discriminate|].
      destruct (includes (V1.query_deviceId req) (V1.allow state)) eqn:Ea;
        simpl; [|discriminate].
      intros _. repeat split;
        [now apply truthy_true | now apply includes_true | now apply includes_false].
    + unfold V1.op_allow. now destruct (negb (truthy (V1.body_deviceId req))).
    + unfold V1.op_block. now destruct (negb (truthy (V1.body_deviceId req))).
  - intros now fs. unfold V2.server.
    destruct (String.eqb (method req) "OPTIONS"); [discriminate|].
    destruct (String.eqb (pathname req) "/health"); [discriminate|].
    destruct (String.eqb (pathname req) "/check").
    + destruct (truthy (V2.check_deviceId req)) eqn:T.
      * rewrite op_check_answer by exact T. unfold V2.check_update. simpl.
        destruct (includes (V2.check_deviceId req) (V2.allow (V2.view env fs))) eqn:Ea.
        -- intros _. split; [now apply truthy_true | now apply includes_true].
        -- now destruct (includes (V2.check_deviceId req) (V2.block (V2.view env fs))).
      * unfold V2.op_check. rewrite T. discriminate.
    + destruct (V2.authenticateRequest env req fs) as [ok fs1].
      destruct ok; simpl; [|discriminate].
      repeat match goal with
             | |- context [if ?c then _ else _] =>
                 destruct c; try (simpl; intros N; discriminate N)
             end.
      * unfold V2.op_list. now destruct (V2.loadServerData env fs1).
      * unfold V2.with_body, V2.op_allow. destruct (payload req) as [| |o]; try discriminate.
        destruct (negb (truthy (or_empty o))); [discriminate|].
        now destruct (V2.loadServerData env fs1).
      * unfold V2.with_body, V2.op_block. destruct (payload req) as [| |o]; try discriminate.
        destruct (negb (truthy (or_empty o))); [discriminate|].
        now destruct (V2.loadServerData env fs1).
      * unfold V2.op_unallow.
        destruct (negb (truthy (or_empty (get "deviceId" (searchParams req)))));
          [discriminate|].
        now destruct (V2.loadServerData env fs1).
      * unfold V2.op_unblock.
        destruct (negb (truthy (or_empty (get "deviceId" (searchParams req)))));
          [discriminate|].
        now destruct (V2.loadServerData env fs1).
      * unfold V2.op_clearPending. now destruct (V2.loadServerData env fs1).
Qed.

Lemma allowed_only_if_listed_witness :
  V1.query_deviceId (Run.GET_check " dev1 ") ∈ ["dev1"].
Proof.
  exact (proj1 (proj2 (proj1 (allowed_only_if_listed None (Run.GET_check " dev1 "))
                         (V1.MkState Run.token ["dev1"] []) Run.first_start eq_refl))).
Defined.

End frames.

(** ** The two versions side by side *)
Section versions.
Import JS Http Props.

(** Every decision the servers send has [forceExit] the negation of
    [allowed], [intervalSec] 30, and an empty reason exactly when the device
    is allowed.  The first version sends every decision with status 200; the
    second sends 400 exactly for the reason "missing deviceId". *)
Theorem decisions_are_well_formed (env : option string) (req : request)
    (code : Z) (allowed forceExit : bool) (intervalSec : Z) (reason : string) :
  (forall (state : V1.State) (fs : disk V1.parsed),
      fst (fst (V1.server req state fs))
      = Decision code allowed forceExit intervalSec reason ->
      forceExit = negb allowed /\ intervalSec = 30
      /\ (allowed = true <-> reason = "") /\ code = 200)
  /\ (forall (now : string) (fs : disk V2.parsed),
      fst (V2.server env req now fs)
      = Decision code allowed forceExit intervalSec reason ->
      forceExit = negb allowed /\ intervalSec = 30
      /\ (allowed = true <-> reason = "")
      /\ (code = 400 <-> reason = "missing deviceId")
      /\ (code = 400 \/ code = 200)).
Proof.
  split.
  - intros state fs. unfold V1.server.
    repeat match goal with
           | |- context [if ?c then _ else _] =>
               destruct c; try (simpl; intros N; discriminate N)
           end.
    + unfold V1.op_check. simpl.
      destruct (negb (truthy (V1.query_deviceId req)));
        [|destruct (includes (V1.query_deviceId req) (V1.block state));
          [|destruct (includes (V1.query_deviceId req) (V1.allow state))]];
        intros E; injection E as <- <- <- <- <-; repeat split; discriminate.
    + unfold V1.op_allow. now destruct (negb (truthy (V1.body_deviceId req))).
    + unfold V1.op_block. now destruct (negb (truthy (V1.body_deviceId req))).
  - intros now fs. unfold V2.server.
    destruct (String.eqb (method req) "OPTIONS"); [discriminate|].
    destruct (String.eqb (pathname req) "/health"); [discriminate|].
    destruct (String.eqb (pathname req) "/check").
    + destruct (truthy (V2.check_deviceId req)) eqn:T.
      * rewrite op_check_answer by exact T. unfold V2.check_update. simpl.
        destruct (includes (V2.check_deviceId req) (V2.allow (V2.view env fs)));
          [|destruct (includes (V2.check_deviceId req) (V2.block (V2.view env fs)))];
          intros E; injection E as <- <- <- <- <-;
          repeat split; try discriminate; now right.
      * unfold V2.op_check. rewrite T. simpl.
        intros E; injection E as <- <- <- <- <-;
          repeat split; try discriminate; now left.
    + destruct (V2.authenticateRequest env req fs) as [ok fs1].
      destruct ok; simpl; [|discriminate].
      repeat match goal with
             | |- context [if ?c then _ else _] =>
                 destruct c; try (simpl; intros N; discriminate N)
             end.
      * unfold V2.op_list. now destruct (V2.loadServerData env fs1).
      * unfold V2.with_body, V2.op_allow. destruct (payload req) as [| |o]; try discriminate.
        destruct (negb (truthy (or_empty o))); [discriminate|].
        now destruct (V2.loadServerData env fs1).
      * unfold V2.with_body, V2.op_block. destruct (payload req) as [| |o]; try discriminate.
        destruct (negb (truthy (or_empty o))); [discriminate|].
        now destruct (V2.loadServerData env fs1).
      * unfold V2.op_unallow.
        destruct (negb (truthy (or_empty (get "deviceId" (searchParams req)))));
          [discriminate|].
        now destruct (V2.loadServerData env fs1).
      * unfold V2.op_unblock.
        destruct (negb (truthy (or_empty (get "deviceId" (searchParams req)))));
          [discriminate|].
        now destruct (V2.loadServerData env fs1).
      * unfold V2.op_clearPending. now destruct (V2.loadServerData env fs1).
Qed.

Lemma decisions_are_well_formed_witness :
  (400 = 400 <-> "missing deviceId" = "missing deviceId").
Proof.
  exact (proj1 (proj2 (proj2 (proj2
           (proj2 (decisions_are_well_formed None (Run.GET_check "")
                     400 false true 30 "missing deviceId")
              Run.t1 Run.first_start eq_refl))))).
Defined.

(** On the allow list and the block list the second version computes what
    the first computes: started on the same two lists, [allow], [block] and
    the two removals of a non-empty identifier end in the same two lists,
    and a check gives the same verdict unless the identifier is in both
    lists (then the first version refuses and the second allows). *)
Theorem versions_agree_on_lists (d now : string) (sd : V2.ServerData)
    (fs : disk V1.parsed) :
  d <> "" ->
  let state := V1.MkState (V2.adminToken sd) (V2.allow sd) (V2.block sd) in
  (V1.allow (snd (fst (V1.op_allow d state fs))) = V2.allow (V2.allow_update d sd)
   /\ V1.block (snd (fst (V1.op_allow d state fs))) = V2.block (V2.allow_update d sd))
  /\ (V1.allow (snd (fst (V1.op_block d state fs))) = V2.allow (V2.block_update d sd)
      /\ V1.block (snd (fst (V1.op_block d state fs))) = V2.block (V2.block_update d sd))
  /\ (V1.allow (snd (fst (V1.op_unallow d state fs))) = filter_ne d (V2.allow sd)
      /\ V1.block (snd (fst (V1.op_unblock d state fs))) = filter_ne d (V2.block sd))
  /\ (~ (d ∈ V2.allow sd /\ d ∈ V2.block sd) ->
      allows (V1.op_check d state) = allows (fst (V2.check_update d now sd)))
  /\ (d ∈ V2.allow sd -> d ∈ V2.block sd ->
      allows (V1.op_check d state) = false
      /\ allows (fst (V2.check_update d now sd)) = true).
Proof.
  intros Hd state. apply truthy_true in Hd.
  unfold V1.op_allow, V1.op_block, V1.op_unallow, V1.op_unblock, V1.op_check,
    V2.allow_update, V2.block_update, V2.check_update.
  rewrite Hd. simpl. repeat split.
  - now destruct (includes d (V2.allow sd)).
  - now destruct (includes d (V2.allow sd)).
  - now destruct (includes d (V2.block sd)).
  - now destruct (includes d (V2.block sd)).
  - intros H.
    destruct (includes d (V2.allow sd)) eqn:Ea, (includes d (V2.block sd)) eqn:Eb;
      try reflexivity.
    exfalso. apply H. split; now apply includes_true.
  - apply includes_true in H0. now rewrite H0.
  - apply includes_true in H. now rewrite H.
Qed.

Lemma versions_agree_on_lists_witness :
  V1.allow (snd (fst (V1.op_allow "dev1" (V1.MkState Run.token [] ["dev1"])
                                  Run.first_start)))
  = V2.allow (V2.allow_update "dev1" (V2.MkData Run.token [] ["dev1"] [] ∅)).
Proof.
  assert ("dev1" <> "") as Hd by discriminate.
  exact (proj1 (proj1 (versions_agree_on_lists "dev1" Run.t1
                         (V2.MkData Run.token [] ["dev1"] [] ∅) Run.first_start Hd))).
Defined.

(** Concrete runs of the two lemmas on the order of [allow] and [block]. *)
Lemma last_writer_wins_first_version_witness :
  "dev1" ∈ V1.block (snd (fst (V1.op_block "dev1"
              (snd (fst (V1.op_allow "dev1" (V1.seed None) Run.first_start)))
              (snd (V1.op_allow "dev1" (V1.seed None) Run.first_start))))).
Proof.
  assert ("dev1" <> "") as Hd by discriminate.
  exact (proj1 (proj1 (last_writer_wins_first_version "dev1" (V1.seed None)
                         Run.first_start Hd))).
Defined.

Lemma last_writer_wins_second_version_witness :
  "dev1" ∈ V2.allow (V2.view None (snd (V2.op_allow None "dev1"
                                         (snd (V2.op_block None "dev1" Run.first_start))))).
Proof.
  assert ("dev1" <> "") as Hd by discriminate.
  refine (proj1 (proj2 (last_writer_wins_second_version None "dev1" Run.first_start
                          Hd eq_refl _))).
  discriminate.
Defined.

End versions.

(** ** Concurrent requests *)
Section concurrency.
Import JS Http Loop.

(** The segments of a handler, run one after the other, are the handler. *)
Lemma V1_segments_are_server (req : request) (state : V1.State) (fs : disk V1.parsed) :
  match V1_begin req state fs with
  | inl x => x
  | inr a => V1_resume a req state fs
  end = V1.server req state fs.
Proof.
  unfold V1_begin, V1.server, V1_resume.
  repeat match goal with
         | |- context [if ?c then _ else _] => destruct c; try reflexivity
         end.
Qed.

Lemma V2_segments_are_server (env : option string) (req : request) (now : string)
    (fs : disk V2.parsed) :
  match V2_begin env req now fs with
  | (inl r, fs') => (r, fs')
  | (inr a, fs') => V2_resume env a req fs'
  end = V2.server env req now fs.
Proof.
  assert (forall x : response * disk V2.parsed,
             match answered x with
             | (inl r, fs') => (r, fs')
             | (inr a, fs') => V2_resume env a req fs'
             end = x) as K by (intros [r f]; reflexivity).
  unfold V2_begin, V2.server, V2_resume.
  destruct (String.eqb (method req) "OPTIONS"); [reflexivity|].
  destruct (String.eqb (pathname req) "/health"); [reflexivity|].
  destruct (String.eqb (pathname req) "/check"); [apply K|].
  destruct (V2.authenticateRequest env req fs) as [ok fs1].
  destruct ok; simpl; [|reflexivity].
  repeat match goal with
         | |- context [if ?c then _ else _] =>
             destruct c; try reflexivity; try apply K
         end.
Qed.



(** *** [allow(d)] against [block(d)], first version *)






(** *** [allow(d)] against [block(d)], second version *)








(** *** Two checks of a device never seen *)





(** The schedule decides which of the two lists it is: when the [allow]
    runs its second segment last the device is allowed, when the [block]
    does it is blocked. *)
Lemma schedule_decides_the_winner :
  V1.allow (snd (fst (V1_run [0; 1; 1; 0]%nat
                        [Fresh (Run.POST_allow "dev1"); Fresh (Run.POST_block "dev1")]
                        (V1.seed None) Run.first_start))) = ["dev1"]
  /\ V1.block (snd (fst (V1_run [0; 1; 0; 1]%nat
                        [Fresh (Run.POST_allow "dev1"); Fresh (Run.POST_block "dev1")]
                        (V1.seed None) Run.first_start))) = ["dev1"].
Proof. vm_compute. split; reflexivity. Qed.

End concurrency.

(** ** A file that can be written and not read *)
Section write_only_file.
Import JS Http.

(** On a write-only [server.json] every load fails and gives the seed.  The
    second version answers the [allow] with the new list, writes it, and the
    next request lists nothing.  The first version keeps the change in its
    state, and loses it at the next start. *)
Lemma write_only_file_second_version :
  let '(r1, fs1) := V2.server None (Run.POST_allow "dev1") Run.t1 Run.write_only in
  let '(r2, _) := V2.server None Run.GET_list Run.t2 fs1 in
  r1 = Allow_list ["dev1"] /\ r2 = Listing [] [] (Some []) (Some ∅).
Proof. vm_compute. split; reflexivity. Qed.

Lemma write_only_file_first_version :
  let '(s0, fs0) := V1.loadData None Run.write_only in
  let '(r1, s1, fs1) := V1.server (Run.POST_block "dev1") s0 fs0 in
  let '(r2, _, _) := V1.server Run.GET_list s1 fs1 in
  r1 = Block_list ["dev1"] /\ r2 = Listing [] ["dev1"] None None
  /\ fst (V1.loadData None fs1) = V1.seed None.
Proof. vm_compute. repeat split; reflexivity. Qed.

End write_only_file.
